(** * sensor-hub: the hardware statistics collector ([src/hardware/stats.py])

    A shallow embedding of the class [HardwareStats] and of the Python
    built-ins its methods call.

    - Python floats are IEEE 754 binary64 values, modelled by the Standard
      Library's [spec_float] at precision 53 and maximal exponent 1024; all
      arithmetic is exact integer arithmetic followed by one rounding to
      nearest, ties to even.
    - Python strings are sequences of code points; the model covers the code
      points below 256, one [ascii] each.
    - Dictionaries are finite maps with string keys ([gmap]).
    - A method is a computation that threads the log of the module's logger
      and either returns a value or raises an exception. An exception is
      or is not an instance of [Exception] (a [KeyboardInterrupt] is not),
      and [str(e)] returns a text or raises in turn; [except Exception]
      catches the instances of [Exception] only, and a handler that
      formats [e] raises when [str(e)] does.
    - The host (environment variables, file system, [socket], [platform] and
      [psutil]) is a record of the outcomes the calls have at the instant of
      the query. *)

From Stdlib Require Import ZArith Lia Bool List String Ascii.
From Stdlib Require Import Floats.SpecFloat.
From stdpp Require Import base option list strings gmap.

Set Warnings "-register-all".

Local Open Scope string_scope.
Local Open Scope Z_scope.

(** ** Outcomes of Python calls *)

(** An exception object: the name of its class, whether it is an instance
    of [Exception] (and not only of [BaseException]), and what [str(e)]
    does: [MkExn] when it returns a text, [BadStr] when it raises. *)
Inductive exn : Type :=
  | MkExn (class : string) (is_exc : bool) (text : string)
  | BadStr (class : string) (is_exc : bool) (raised : exn).

(** An instance of [Exception] whose [str] is [text]. *)
Definition Exn (class text : string) : exn := MkExn class true text.

Definition exn_class (e : exn) : string :=
  match e with
  | MkExn c _ _ => c
  | BadStr c _ _ => c
  end.

(** [isinstance(e, Exception)] *)
Definition is_exception (e : exn) : bool :=
  match e with
  | MkExn _ b _ => b
  | BadStr _ b _ => b
  end.

Inductive outcome (A : Type) : Type :=
  | Return (a : A)
  | Raise (e : exn).
Arguments Return {A} a.
Arguments Raise {A} e.

(** [str(e)], which is also what [f"{e}"] evaluates. *)
Definition py_str (e : exn) : outcome string :=
  match e with
  | MkExn _ _ text => Return text
  | BadStr _ _ raised => Raise raised
  end.

(** ** binary64 *)

Module Float64.

Abbreviation float := spec_float.

Definition prec : Z := 53.
Definition emax : Z := 1024.

(** A [spec_float] that is a binary64 value: zero, infinity, NaN, or a finite
    number whose mantissa and exponent are the canonical ones. *)
Definition is_binary64 (x : float) : bool := valid_binary prec emax x.

(** The binary64 value nearest to [(-1)^s * num / den], ties to even. *)
Definition of_ratio (s : bool) (num den : positive) : float :=
  SFdiv prec emax (S754_finite s num 0) (S754_finite false den 0).

(** The binary64 value nearest to [(-1)^s * m * 10^e]: what a correctly
    rounded decimal-to-binary conversion returns. *)
Definition of_decimal (s : bool) (m : Z) (e : Z) : float :=
  match m with
  | Zpos p =>
      if 0 <=? e then of_ratio s (p * Z.to_pos (10 ^ e)) 1
      else of_ratio s p (Z.to_pos (10 ^ (- e)))
  | _ => S754_zero s
  end.

(** [x / y] on floats, for a divisor that is not zero. *)
Definition div (x y : float) : float := SFdiv prec emax x y.

(** Python's [x <= y] on floats. *)
Definition leb (x y : float) : bool := SFleb x y.

(** The float literals of the source and of the examples. *)
Definition zero : float := S754_zero false.              (* 0.0 *)
Definition thousand : float := of_decimal false 1000 0.    (* 1000.0 *)
Definition hundred : float := of_decimal false 100 0.      (* 100.0 *)

(** The integer nearest to [n / d], ties to the even one ([0 < d]). *)
Definition div_half_even (n d : Z) : Z :=
  let q := n / d in
  let r := n mod d in
  match 2 * r ?= d with
  | Lt => q
  | Gt => q + 1
  | Eq => if Z.even q then q else q + 1
  end.

(** The number of tenths nearest to [m * 2^e], ties to even. *)
Definition tenths (m : positive) (e : Z) : Z :=
  if 0 <=? e then 10 * Zpos m * 2 ^ e
  else div_half_even (10 * Zpos m) (2 ^ (- e)).

(** [round(x, 1)] on a float: infinities and NaN round to themselves;
    a finite [x] is first written, correctly rounded, with one digit after
    the decimal point (on an exact tie the even digit is chosen), and that
    decimal is converted back to the nearest float. The sign of [x] is kept,
    also when the result is zero. No [OverflowError] can arise with one
    digit: a float of magnitude at least 2^52 is an integer. *)
Definition round1 (x : float) : float :=
  match x with
  | S754_finite s m e =>
      match tenths m e with
      | Zpos n => of_ratio s n 10
      | _ => S754_zero s
      end
  | _ => x
  end.

(** Python's [0.0 <= x <= 100.0]. *)
Definition in_percent_range (x : float) : bool :=
  leb zero x && leb x hundred.

End Float64.

Export Float64.

(** ** Strings *)

Module PyStr.

Definition code (c : ascii) : Z := Z.of_N (N_of_ascii c).

(** [str.isspace] on one code point below 256. *)
Definition is_unicode_space (c : ascii) : bool :=
  let n := code c in
  ((9 <=? n) && (n <=? 13)) || ((28 <=? n) && (n <=? 32))
  || (n =? 133) || (n =? 160).

(** The C-level [Py_ISSPACE]: ASCII white space only. *)
Definition is_ascii_space (c : ascii) : bool :=
  let n := code c in
  ((9 <=? n) && (n <=? 13)) || (n =? 32).

Definition is_digit (c : ascii) : bool :=
  let n := code c in (48 <=? n) && (n <=? 57).

Definition digit_value (c : ascii) : Z := code c - 48.

Fixpoint lstrip (sp : ascii -> bool) (s : string) : string :=
  match s with
  | String c r => if sp c then lstrip sp r else s
  | EmptyString => s
  end.

Fixpoint rstrip (sp : ascii -> bool) (s : string) : string :=
  match s with
  | String c r =>
      match rstrip sp r with
      | EmptyString => if sp c then EmptyString else String c EmptyString
      | r' => String c r'
      end
  | EmptyString => s
  end.

(** [s.strip()] *)
Definition strip (s : string) : string :=
  rstrip is_unicode_space (lstrip is_unicode_space s).

Fixpoint contains (c : ascii) (s : string) : bool :=
  match s with
  | String d r => Ascii.eqb c d || contains c r
  | EmptyString => false
  end.

Fixpoint forall_chars (p : ascii -> bool) (s : string) : bool :=
  match s with
  | String c r => p c && forall_chars p r
  | EmptyString => true
  end.

Definition hex_digit (n : Z) : ascii :=
  ascii_of_N (Z.to_N (if n <? 10 then 48 + n else 87 + n)).

(** [str.isprintable] on one code point below 256. *)
Definition is_printable (c : ascii) : bool :=
  let n := code c in
  ((32 <=? n) && (n <? 127)) || ((161 <=? n) && negb (n =? 173)).

Definition repr_char (quote c : ascii) : string :=
  let n := code c in
  if Ascii.eqb c quote || (n =? 92) then String "\" (String c EmptyString)
  else if n =? 9 then "\t"
  else if n =? 10 then "\n"
  else if n =? 13 then "\r"
  else if is_printable c then String c EmptyString
  else String "\" (String "x" (String (hex_digit (n / 16))
                                 (String (hex_digit (n mod 16)) EmptyString))).

Fixpoint repr_body (quote : ascii) (s : string) : string :=
  match s with
  | String c r => repr_char quote c ++ repr_body quote r
  | EmptyString => EmptyString
  end.

(** [repr(s)]: single quotes unless the string has a single quote and no
    double quote. *)
Definition repr (s : string) : string :=
  let dq : ascii := "034"%char in
  let sq : ascii := "039"%char in
  let quote : ascii := if contains sq s && negb (contains dq s) then dq else sq in
  String quote (repr_body quote s ++ String quote EmptyString).

End PyStr.

(** ** The built-in [float(s)] on a string *)

Module PyFloat.
Import PyStr.

(** Unicode white space becomes a space; the first other code point from
    127 on becomes a question mark and ends the text. A string of ASCII
    characters is left as it is. *)
Fixpoint transform_spaces (s : string) : string :=
  match s with
  | String c r =>
      if code c <? 127 then String c (transform_spaces r)
      else if is_unicode_space c then String " " (transform_spaces r)
      else "?"
  | EmptyString => EmptyString
  end.

Definition to_ascii (s : string) : string :=
  if forall_chars (fun c => code c <? 128) s then s else transform_spaces s.

(** Underscores are dropped; one is allowed only between two digits.
    [prev] is the character before, [None] at the start. *)
Fixpoint drop_underscores (prev : option ascii) (s : string) : option string :=
  match s with
  | String c r =>
      if Ascii.eqb c "_" then
        match prev with
        | Some p => if is_digit p then drop_underscores (Some c) r else None
        | None => None
        end
      else
        let after_underscore :=
          match prev with Some p => Ascii.eqb p "_" | None => false end in
        if after_underscore && negb (is_digit c) then None
        else option_map (String c) (drop_underscores (Some c) r)
  | EmptyString =>
      match prev with
      | Some p => if Ascii.eqb p "_" then None else Some EmptyString
      | None => Some EmptyString
      end
  end.

Definition without_underscores (s : string) : option string :=
  if contains "_" s then drop_underscores None s else Some s.

(** A run of zeros: how many, and what follows. *)
Fixpoint skip_zeros (s : string) (n : Z) : Z * string :=
  match s with
  | String c r => if Ascii.eqb c "0" then skip_zeros r (n + 1) else (n, s)
  | EmptyString => (n, s)
  end.

(** A run of digits, continuing the number [acc]: the number read, how many
    digits, and what follows. *)
Fixpoint scan_digits (s : string) (acc n : Z) : Z * Z * string :=
  match s with
  | String c r =>
      if is_digit c then scan_digits r (10 * acc + digit_value c) (n + 1)
      else (acc, n, s)
  | EmptyString => (acc, n, s)
  end.

Definition scan_sign (s : string) : bool * string :=
  match s with
  | String c r =>
      if Ascii.eqb c "-" then (true, r)
      else if Ascii.eqb c "+" then (false, r)
      else (false, s)
  | EmptyString => (false, s)
  end.

Definition MAX_DIGITS : Z := 1000000000.
Definition MAX_ABS_EXP : Z := 1100000000.

(** The exponent part: the exponent and what follows it. An exponent
    without a digit is not read at all. *)
Definition scan_exponent (s : string) : Z * string :=
  match s with
  | String c r =>
      if Ascii.eqb c "e" || Ascii.eqb c "E" then
        let '(esign, r1) := scan_sign r in
        let '(nz, r2) := skip_zeros r1 0 in
        let '(abs_exp, k, r3) := scan_digits r2 0 0 in
        if (k =? 0) && (nz =? 0) then (0, s)
        else
          let e := if (9 <? k) || (MAX_ABS_EXP <? abs_exp) then MAX_ABS_EXP
                   else abs_exp in
          (if esign then - e else e, r3)
      else (0, s)
  | EmptyString => (0, s)
  end.

(** The decimal number at the start of [s], correctly rounded, and what
    follows it; [None] when [s] does not start with a number. *)
Definition strtod (s : string) : option (float * string) :=
  let '(sign, s1) := scan_sign s in
  let '(nz, s2) := skip_zeros s1 0 in
  let '(int_part, nint, s3) := scan_digits s2 0 0 in
  let '(mant, ndigits, fraclen, lz, s4) :=
    match s3 with
    | String "." r =>
        let '(nz', r1) := if nint =? 0 then skip_zeros r 0 else (0, r) in
        let '(m, nfrac, r2) := scan_digits r1 int_part 0 in
        (m, nint + nfrac, nz' + nfrac, (0 <? nz) || (0 <? nz'), r2)
    | _ => (int_part, nint, 0, 0 <? nz, s3)
    end in
  if (ndigits =? 0) && negb lz then None
  else if (MAX_DIGITS <? ndigits) || (MAX_DIGITS <? fraclen) then None
  else
    let '(e, s5) := scan_exponent s4 in
    Some (of_decimal sign mant (e - fraclen), s5).

Definition lower (c : ascii) : ascii :=
  let n := code c in
  if (65 <=? n) && (n <=? 90) then ascii_of_N (Z.to_N (n + 32)) else c.

(** [t] is in lower case; the rest of [s] after [t], letter case ignored. *)
Fixpoint match_nocase (s t : string) : option string :=
  match t with
  | EmptyString => Some s
  | String d t' =>
      match s with
      | String c s' => if Ascii.eqb (lower c) d then match_nocase s' t' else None
      | EmptyString => None
      end
  end.

Definition parse_inf_or_nan (s : string) : option (float * string) :=
  let '(sign, s1) := scan_sign s in
  match match_nocase s1 "inf" with
  | Some r =>
      Some (S754_infinity sign,
            match match_nocase r "inity" with Some r' => r' | None => r end)
  | None =>
      match match_nocase s1 "nan" with
      | Some r => Some (S754_nan, r)
      | None => None
      end
  end.

Definition ascii_strtod (s : string) : option (float * string) :=
  match strtod s with
  | Some res => Some res
  | None => parse_inf_or_nan s
  end.

Definition ValueError (s : string) : exn :=
  Exn "ValueError" ("could not convert string to float: " ++ repr s).

(** [float(s)] *)
Definition float_of_string (s : string) : outcome float :=
  match without_underscores (to_ascii s) with
  | Some t =>
      match ascii_strtod (rstrip is_ascii_space (lstrip is_ascii_space t)) with
      | Some (x, EmptyString) => Return x
      | _ => Raise (ValueError s)
      end
  | None => Raise (ValueError s)
  end.

End PyFloat.

(** ** Python values, the logger and computations *)

(** The values a report is made of. *)
Inductive pyval :=
  | PBool (b : bool)
  | PStr (s : string)
  | PInt (n : Z)
  | PFloat (x : float)
  | PList (l : list pyval)
  | PDict (d : gmap string pyval).

Abbreviation dict := (gmap string pyval).

Inductive level := INFO | WARNING | ERROR.

(** A record handed to the module's [logger]. *)
Record log_record := LogRecord { levelname : level; message : string }.

(** A computation: from the log so far to an outcome and the log after. *)
Definition py (A : Type) : Type :=
  list log_record → outcome A * list log_record.

#[export] Instance py_ret : MRet py := λ A a log, (Return a, log).

#[export] Instance py_bind : MBind py := λ A B f m log,
  match m log with
  | (Return a, log') => f a log'
  | (Raise e, log') => (Raise e, log')
  end.

(** A call into the host or a built-in: its outcome, the log untouched. *)
Definition call {A} (o : outcome A) : py A := λ log, (o, log).

(** [try: body except Exception as e: handler]: an exception that is no
    instance of [Exception] passes through, and what the handler raises
    is raised. *)
Definition try_except {A} (body : py A) (handler : exn → py A) : py A :=
  λ log,
    match body log with
    | (Raise e, log') =>
        if is_exception e then handler e log' else (Raise e, log')
    | r => r
    end.

Definition logger_log (lv : level) (msg : string) : py unit :=
  λ log, (Return tt, (log ++ [LogRecord lv msg])%list).

Definition logger_warning := logger_log WARNING.
Definition logger_error := logger_log ERROR.

Definition logger_info := logger_log INFO.

Notation "m1 ;; m2" := (m1 ≫= (λ _, m2))
  (at level 100, m2 at level 200, right associativity) : stdpp_scope.

(** ** The host *)

(** What [open(path, 'r')] followed by [read()] does on an existing path:
    it returns a text of code points below 256, or a text with a code
    point from 256 on, of which only what [float(text.strip())] does is
    kept, or it raises. *)
Inductive file_node :=
  | Readable (text : string)
  | ReadableWide (parsed : outcome float)
  | Unreadable (e : exn).

(** A text read from a file. *)
Inductive contents :=
  | Narrow (text : string)
  | Wide (parsed : outcome float).

(** The two fields read from the result of [psutil.virtual_memory()]. *)
Record svmem := Svmem { total : Z; used : Z }.

Record host := Host {
  (** [os.environ] *)
  environ : gmap string string;
  (** [socket.gethostname()] *)
  gethostname : outcome string;
  (** [platform.system()] *)
  system : outcome string;
  (** [platform.machine()] *)
  machine : outcome string;
  (** the paths that exist *)
  files : gmap string file_node;
  (** [psutil.cpu_percent(interval=0.1, percpu=True)] *)
  cpu_percent : outcome (list float);
  (** [psutil.virtual_memory()] *)
  virtual_memory : outcome svmem
}.

(** [os.getenv(key, default)] *)
Definition getenv (h : host) (key default : string) : string :=
  match environ h !! key with
  | Some v => v
  | None => default
  end.

(** [os.path.exists(path)] *)
Definition path_exists (h : host) (path : string) : bool :=
  match files h !! path with
  | Some _ => true
  | None => false
  end.

(** [with open(path, 'r') as f: f.read()] *)
Definition read_text (h : host) (path : string) : outcome contents :=
  match files h !! path with
  | Some (Readable text) => Return (Narrow text)
  | Some (ReadableWide parsed) => Return (Wide parsed)
  | Some (Unreadable e) => Raise e
  | None =>
      Raise (Exn "FileNotFoundError"
               ("[Errno 2] No such file or directory: " ++ PyStr.repr path))
  end.

(** [float(text.strip())] *)
Definition float_of_stripped (t : contents) : outcome float :=
  match t with
  | Narrow text => PyFloat.float_of_string (PyStr.strip text)
  | Wide parsed => parsed
  end.

(** ** class HardwareStats *)

Module HardwareStats.

(** Raspberry Pi *)
Definition thermal_zone0 : string := "/sys/class/thermal/thermal_zone0/temp".
(** Alternative *)
Definition virtual_thermal_zone0 : string :=
  "/sys/devices/virtual/thermal/thermal_zone0/temp".

Definition thermal_paths : list string :=
  [ thermal_zone0; virtual_thermal_zone0 ].

(** The [for path in thermal_paths] loop of [_get_cpu_temperature]:
    [Some temp] when the loop body returns [temp], [None] when the loop
    ends without returning. *)
Fixpoint read_thermal_zone (h : host) (paths : list string) : py (option float) :=
  match paths with
  | path :: rest =>
      if path_exists h path then
        text ← call (read_text h path);
        x ← call (float_of_stripped text);
        let temp := div x thousand in
        mret (Some (round1 temp))
      else read_thermal_zone h rest
  | [] => mret None
  end.

Definition _get_cpu_temperature (h : host) : py float :=
  try_except
    (found ← read_thermal_zone h thermal_paths;
     match found with
     | Some temp => mret temp
     | None =>
         logger_warning "No thermal zone found for CPU temperature";;
         mret zero
     end)
    (λ e,
       msg ← call (py_str e);
       logger_error ("Error reading CPU temperature: " ++ msg);;
       mret zero).

(** The dictionary literal with the keys hostname, platform and arch. *)
Definition os_dict (hostname platform arch : string) : dict :=
  <["hostname" := PStr hostname]>
    (<["platform" := PStr platform]> (<["arch" := PStr arch]> ∅)).

Definition unknown_os : dict := os_dict "unknown" "unknown" "unknown".

Definition _get_os_info (h : host) : py dict :=
  try_except
    (name ← call (gethostname h);
     let hostname := getenv h "PUBLIC_HOSTNAME" name in
     platform ← call (system h);
     arch ← call (machine h);
     mret (os_dict hostname platform arch))
    (λ e,
       msg ← call (py_str e);
       logger_error ("Error getting OS info: " ++ msg);;
       mret unknown_os).

Definition _get_cpu_usage (h : host) : py (list float) :=
  try_except
    (per_cpu ← call (cpu_percent h);
     mret (map round1 per_cpu))
    (λ e,
       msg ← call (py_str e);
       logger_error ("Error getting CPU usage: " ++ msg);;
       mret [zero]).

(** The dictionary literal with the keys used and total. *)
Definition memory_dict (u t : Z) : dict :=
  <["used" := PInt u]> (<["total" := PInt t]> ∅).

Definition _get_memory_usage (h : host) : py dict :=
  try_except
    (mem ← call (virtual_memory h);
     mret (memory_dict (used mem) (total mem)))
    (λ e,
       msg ← call (py_str e);
       logger_error ("Error getting memory usage: " ++ msg);;
       mret (memory_dict 0 0)).

(** The object [self]: Python looks the four private methods up on it when
    [get_stats] runs, so an instance whose method was replaced (a test
    double) runs the replacement. *)
Record instance := Instance_ {
  self_get_os_info : py dict;
  self_get_cpu_temperature : py float;
  self_get_cpu_usage : py (list float);
  self_get_memory_usage : py dict
}.

(** The instance [HardwareStats()] gives on host [h], with the four methods
    of the class. The constructor only logs and probes [psutil] once, the
    failure of the probe being logged and dropped; it is no part of a
    query. *)
Definition new (h : host) : instance :=
  Instance_ (_get_os_info h) (_get_cpu_temperature h)
            (_get_cpu_usage h) (_get_memory_usage h).

Definition cpu_usage_value (l : list float) : pyval := PList (map PFloat l).

(** The dictionary literal [stats] of [get_stats]. *)
Definition stats_dict (os : dict) (cpuTemp : float) (cpuUsage : list float)
    (memoryUsage : dict) : dict :=
  <["success" := PBool true]>
    (<["os" := PDict os]>
       (<["cpuTemp" := PFloat cpuTemp]>
          (<["cpuUsage" := cpu_usage_value cpuUsage]>
             (<["memoryUsage" := PDict memoryUsage]> ∅)))).

(** The body of the [try] of [get_stats]: the four calls, in the order of
    the literal, then the literal. *)
Definition collect (self : instance) : py dict :=
  os ← self_get_os_info self;
  cpuTemp ← self_get_cpu_temperature self;
  cpuUsage ← self_get_cpu_usage self;
  memoryUsage ← self_get_memory_usage self;
  mret (stats_dict os cpuTemp cpuUsage memoryUsage).

(** The report of the [except] branch of [get_stats]. *)
Definition failure_report (error : string) : dict :=
  <["success" := PBool false]>
    (<["error" := PStr error]>
       (<["os" := PDict unknown_os]>
          (<["cpuTemp" := PFloat zero]>
             (<["cpuUsage" := cpu_usage_value [zero]]>
                (<["memoryUsage" := PDict (memory_dict 0 0)]> ∅))))).

Definition get_stats (self : instance) : py dict :=
  try_except
    (collect self)
    (λ e,
       msg ← call (py_str e);
       logger_error ("Error collecting hardware stats: " ++ msg);;
       error ← call (py_str e);
       mret (failure_report error)).

(** [_validate_system]; [probe] is what the call
    [psutil.cpu_percent(interval=None)] does. *)
Definition _validate_system (probe : outcome float) : py unit :=
  try_except
    (_ ← call probe;
     logger_info "Hardware stats collector initialized successfully")
    (λ e,
       msg ← call (py_str e);
       logger_warning ("Could not validate system: " ++ msg)).

Definition __init__ (probe : outcome float) : py unit :=
  logger_info "Initializing hardware stats collector";;
  _validate_system probe.

(** The expression [HardwareStats()] evaluated on host [h]. *)
Definition construct (h : host) (probe : outcome float) : py instance :=
  __init__ probe;;
  mret (new h).

End HardwareStats.

(** ** Vocabulary of the statements *)

Import HardwareStats.

(** The node the loop of [_get_cpu_temperature] opens: the first candidate,
    in the order of [thermal_paths], that exists. *)
Definition consulted (h : host) (n : file_node) : Prop :=
  files h !! thermal_zone0 = Some n
  ∨ (files h !! thermal_zone0 = None ∧ files h !! virtual_thermal_zone0 = Some n).

(** The node is turned into the number [x]. *)
Definition usable (n : file_node) (x : float) : Prop :=
  (∃ text, n = Readable text
           ∧ PyFloat.float_of_string (PyStr.strip text) = Return x)
  ∨ n = ReadableWide (Return x).

(** The node cannot be turned into a number: opening or reading it raises
    [e], or [float] raises [e] on its text. *)
Definition unusable (n : file_node) (e : exn) : Prop :=
  n = Unreadable e
  ∨ (∃ text, n = Readable text
             ∧ PyFloat.float_of_string (PyStr.strip text) = Raise e)
  ∨ n = ReadableWide (Raise e).

(** A handler [except Exception as e] that formats [e] catches [e] and
    formats it as [s]. *)
Definition absorbed (e : exn) (s : string) : Prop :=
  is_exception e = true ∧ py_str e = Return s.

(** What a handler [except Exception as e] that logs [prefix] followed by
    [str(e)] at level [lv] and then returns [v] makes of [e] raised at
    [log]: [e] passes when it is no instance of [Exception], and what
    [str(e)] raises is raised. *)
Definition handled {A} (lv : level) (prefix : string) (v : A) (e : exn)
    (log : list log_record) : outcome A * list log_record :=
  if is_exception e then
    match py_str e with
    | Return s => (Return v, (log ++ [LogRecord lv (prefix ++ s)])%list)
    | Raise e' => (Raise e', log)
    end
  else (Raise e, log).

(** An outcome reached from the empty log, put after [log]. *)
Definition shifted {A} (log : list log_record)
    (r : outcome A * list log_record) : outcome A * list log_record :=
  (r.1, (log ++ r.2)%list).

(** An instance of [Exception] whose [str] returns. *)
Definition ordinary (e : exn) : Prop := ∃ s, absorbed e s.

Definition raises_ordinary {A} (o : outcome A) : Prop :=
  match o with
  | Raise e => ordinary e
  | Return _ => True
  end.

(** Whatever a call of a query raises on the host is an instance of
    [Exception] whose [str] returns. *)
Definition ordinary_host (h : host) : Prop :=
  raises_ordinary (gethostname h)
  ∧ raises_ordinary (system h)
  ∧ raises_ordinary (machine h)
  ∧ (∀ n e, consulted h n → unusable n e → ordinary e)
  ∧ raises_ordinary (cpu_percent h)
  ∧ raises_ordinary (virtual_memory h).

(** The exception the bundled [try] of [_get_os_info] sees: that of the
    first call that raises, in the order hostname, platform, architecture. *)
Definition os_info_failure (h : host) : option exn :=
  match gethostname h, system h, machine h with
  | Raise e, _, _ => Some e
  | Return _, Raise e, _ => Some e
  | Return _, Return _, Raise e => Some e
  | Return _, Return _, Return _ => None
  end.

(** The thermal zone the loop settles on gives a number. *)
Definition temperature_measurable (h : host) : Prop :=
  ∃ n x, consulted h n ∧ usable n x.

(** What the field os of a report holds: the identity read from the host
    when the three calls return, the fallback when one of them raises. *)
Definition os_field (h : host) (os : dict) : Prop :=
  (∃ name plat arch,
     gethostname h = Return name ∧ system h = Return plat
     ∧ machine h = Return arch
     ∧ os = os_dict (getenv h "PUBLIC_HOSTNAME" name) plat arch)
  ∨ ((∃ e, os_info_failure h = Some e) ∧ os = unknown_os).

(** What the field cpuTemp holds: the reading of the consulted thermal
    zone when it gives a number, the fallback when no candidate exists or
    the consulted one gives none. *)
Definition temperature_field (h : host) (t : float) : Prop :=
  (∃ n x, consulted h n ∧ usable n x
          ∧ t = round1 (Float64.div x thousand))
  ∨ ((files h !! thermal_zone0 = None
      ∧ files h !! virtual_thermal_zone0 = None
      ∨ ∃ n e, consulted h n ∧ unusable n e)
     ∧ t = zero).

(** What the field cpuUsage holds: the rounded samples when sampling
    returns, the fallback when it raises. *)
Definition usage_field (h : host) (l : list float) : Prop :=
  (∃ per_cpu, cpu_percent h = Return per_cpu ∧ l = map round1 per_cpu)
  ∨ ((∃ e, cpu_percent h = Raise e) ∧ l = [zero]).

(** What the field memoryUsage holds: the two measured counts when
    introspection returns, the fallback when it raises. *)
Definition memory_field (h : host) (d : dict) : Prop :=
  (∃ mem, virtual_memory h = Return mem
          ∧ d = memory_dict (used mem) (total mem))
  ∨ ((∃ e, virtual_memory h = Raise e) ∧ d = memory_dict 0 0).

(** Every sample of the host's sampling facility is a binary64 value
    between 0.0 and 100.0 (nothing is asked when sampling raises). *)
Definition samples_are_percentages (h : host) : Prop :=
  match cpu_percent h with
  | Return per_cpu =>
      Forall (λ x, is_binary64 x = true ∧ in_percent_range x = true) per_cpu
  | Raise _ => True
  end.

(** The two hosts answer alike every call a query makes and hold the same
    value, or none, for the one variable and the two paths that are read. *)
Definition same_inputs (h h' : host) : Prop :=
  environ h !! "PUBLIC_HOSTNAME" = environ h' !! "PUBLIC_HOSTNAME"
  ∧ gethostname h = gethostname h'
  ∧ system h = system h'
  ∧ machine h = machine h'
  ∧ files h !! thermal_zone0 = files h' !! thermal_zone0
  ∧ files h !! virtual_thermal_zone0 = files h' !! virtual_thermal_zone0
  ∧ cpu_percent h = cpu_percent h'
  ∧ virtual_memory h = virtual_memory h'.

(** The number a run of decimal digits writes, continuing [acc]. *)
Fixpoint decimal_value (acc : Z) (s : string) : Z :=
  match s with
  | String c r => decimal_value (10 * acc + PyStr.digit_value c) r
  | EmptyString => acc
  end.

(** The float nearest to [k] tenths, with the sign [s]; zero keeps the
    sign. *)
Definition tenth_float (s : bool) (k : Z) : float :=
  match k with
  | Zpos n => of_ratio s n 10
  | _ => S754_zero s
  end.

(** The two floats are the same value of the model. *)
Definition same_float (x y : float) : bool :=
  match x, y with
  | S754_zero s, S754_zero s' => Bool.eqb s s'
  | S754_infinity s, S754_infinity s' => Bool.eqb s s'
  | S754_nan, S754_nan => true
  | S754_finite s m e, S754_finite s' m' e' =>
      Bool.eqb s s' && Pos.eqb m m' && Z.eqb e e'
  | _, _ => false
  end.

(** ** Example hosts *)

(** A Raspberry Pi: the hostname is overridden, the first thermal zone reads
    45678 millidegrees, two cores are sampled at 23.456 and 77.891. *)
Definition pi_host : host :=
  Host (<["PUBLIC_HOSTNAME" := "myhost"]> ∅)
       (Return "raspberrypi") (Return "Linux") (Return "aarch64")
       (<[thermal_zone0 := Readable "45678"]> ∅)
       (Return [of_decimal false 23456 (-3); of_decimal false 77891 (-3)])
       (Return (Svmem 8000000000 3000000000)).

(** A host without thermal zone on which every introspection call fails. *)
Definition bare_host : host :=
  Host ∅
       (Raise (Exn "OSError" "gethostname failed"))
       (Return "Linux") (Return "x86_64")
       ∅
       (Raise (Exn "RuntimeError" "sampling failed"))
       (Raise (Exn "RuntimeError" "no memory statistics")).

(** Only the alternative thermal zone exists and its text is no number; no
    override of the hostname. *)
Definition laptop_host : host :=
  Host ∅
       (Return "laptop") (Return "Linux") (Return "x86_64")
       (<[virtual_thermal_zone0 := Readable "n/a"]> ∅)
       (Return [of_decimal false 5 0])
       (Return (Svmem 16000000000 4000000000)).

(** The sampling facility is replaced by one that reports 150 percent. *)
Definition overloaded_host : host :=
  Host ∅
       (Return "laptop") (Return "Linux") (Return "x86_64")
       ∅
       (Return [of_decimal false 150 0])
       (Return (Svmem 16000000000 4000000000)).


(** An instance whose [_get_memory_usage] was replaced by a method that
    raises [e]; the other three are the real ones on [pi_host]. *)
Definition broken_instance (e : exn) : instance :=
  Instance_ (_get_os_info pi_host) (_get_cpu_temperature pi_host)
            (_get_cpu_usage pi_host) (call (Raise e)).

(** The Raspberry Pi again, with one more variable in the environment and
    one more file. *)
Definition busy_pi_host : host :=
  Host (<["HOME" := "/home/pi"]> (<["PUBLIC_HOSTNAME" := "myhost"]> ∅))
       (Return "raspberrypi") (Return "Linux") (Return "aarch64")
       (<["/etc/hostname" := Readable "raspberrypi"]>
          (<[thermal_zone0 := Readable "45678"]> ∅))
       (Return [of_decimal false 23456 (-3); of_decimal false 77891 (-3)])
       (Return (Svmem 8000000000 3000000000)).

(** The first thermal zone as on the Raspberry Pi, the alternative one
    holding something else. *)
Definition two_zone_host : host :=
  Host ∅
       (Return "raspberrypi") (Return "Linux") (Return "aarch64")
       (<[virtual_thermal_zone0 := Readable "99000"]>
          (<[thermal_zone0 := Readable "45678"]> ∅))
       (Return [of_decimal false 5 0])
       (Return (Svmem 8000000000 3000000000)).

(** The hostname is overridden and the network hostname cannot be read. *)
Definition no_network_host : host :=
  Host (<["PUBLIC_HOSTNAME" := "myhost"]> ∅)
       (Raise (Exn "OSError" "gethostname failed"))
       (Return "Linux") (Return "aarch64")
       ∅
       (Return [of_decimal false 5 0])
       (Return (Svmem 8000000000 3000000000)).

(** The digits 45678 after a space and before a newline. *)
Definition newline_text : string :=
  " 45678" ++ String "010" EmptyString.

(** The thermal zone holds a text that ends with a newline, as the kernel
    writes it. *)
Definition newline_host : host :=
  Host ∅
       (Return "raspberrypi") (Return "Linux") (Return "aarch64")
       (<[thermal_zone0 := Readable newline_text]> ∅)
       (Return [of_decimal false 5 0])
       (Return (Svmem 8000000000 3000000000)).


(** An instance of [Exception] whose [__str__] does not return a text. *)
Definition unprintable_error : exn :=
  BadStr "RuntimeError" true (Exn "TypeError" "__str__ returned non-string").



(** The Raspberry Pi, the sampling raising an exception that cannot be
    formatted. *)
Definition unprintable_host : host :=
  Host (<["PUBLIC_HOSTNAME" := "myhost"]> ∅)
       (Return "raspberrypi") (Return "Linux") (Return "aarch64")
       (<[thermal_zone0 := Readable "45678"]> ∅)
       (Raise unprintable_error)
       (Return (Svmem 8000000000 3000000000)).

(** * Properties *)

(** ** Sanity checks of the built-ins on concrete inputs *)

Example float_of_string_45678 :
  PyFloat.float_of_string "45678" = Return (S754_finite false 6277936516694016 (-37)).
Proof. vm_compute. reflexivity. Qed.

Example float_of_string_literals :
  PyFloat.float_of_string "45.7" = Return (S754_finite false 6431703217838490 (-47))
  ∧ PyFloat.float_of_string "1000.0" = Return thousand
  ∧ PyFloat.float_of_string "100.0" = Return hundred
  ∧ PyFloat.float_of_string "0.0" = Return zero.
Proof. vm_compute. repeat split. Qed.

Example float_of_string_rejects :
  PyFloat.float_of_string "n/a"
  = Raise (Exn "ValueError" "could not convert string to float: 'n/a'")
  ∧ PyFloat.float_of_string "" = Raise (PyFloat.ValueError "")
  ∧ PyFloat.float_of_string "1_" = Raise (PyFloat.ValueError "1_")
  ∧ PyFloat.float_of_string "4 5" = Raise (PyFloat.ValueError "4 5").
Proof. vm_compute. repeat split. Qed.

Example float_of_string_special :
  PyFloat.float_of_string " -Infinity " = Return (S754_infinity true)
  ∧ PyFloat.float_of_string "NaN" = Return S754_nan
  ∧ PyFloat.float_of_string "1e400" = Return (S754_infinity false)
  ∧ PyFloat.float_of_string "-0" = Return (S754_zero true)
  ∧ PyFloat.float_of_string "1_0.5e0_1" = PyFloat.float_of_string "105".
Proof. vm_compute. repeat split. Qed.

(** Ties go to the even digit, on the exact binary value: [round(0.25, 1)]
    is [0.2], [round(0.35, 1)] is [0.3] and [round(-0.01, 1)] is [-0.0]. *)
Example round1_ties :
  round1 (of_decimal false 25 (-2)) = of_decimal false 2 (-1)
  ∧ round1 (of_decimal false 35 (-2)) = of_decimal false 3 (-1)
  ∧ round1 (of_decimal true 1 (-2)) = S754_zero true
  ∧ round1 (S754_infinity false) = S754_infinity false
  ∧ round1 S754_nan = S754_nan.
Proof. vm_compute. repeat split. Qed.

(** [round(x, 1)] as Python prints it: 4503599627370495.5, 1e+300, 100.0
    for 99.95, 0.1 for 0.05 and for 0.15, -2.2 for -2.25. *)
Example round1_values :
  round1 (of_decimal false 45035996273704955 (-1))
  = S754_finite false 9007199254740991 (-1)
  ∧ round1 (of_decimal false 1 300) = of_decimal false 1 300
  ∧ round1 (of_decimal false 9995 (-2)) = hundred
  ∧ round1 (of_decimal false 5 (-2)) = of_decimal false 1 (-1)
  ∧ round1 (of_decimal false 15 (-2)) = of_decimal false 1 (-1)
  ∧ round1 (of_decimal true 225 (-2)) = of_decimal true 22 (-1).
Proof. vm_compute. repeat split. Qed.

(** The largest finite float and the smallest positive one, at the edges
    of the decimal texts that round to them. *)
Example float_of_string_edges :
  PyFloat.float_of_string "1.797693134862315807e+308"
  = Return (S754_finite false 9007199254740991 971)
  ∧ PyFloat.float_of_string "1.797693134862315808e+308"
    = Return (S754_infinity false)
  ∧ PyFloat.float_of_string "2.4703282292062327e-324" = Return zero
  ∧ PyFloat.float_of_string "2.4703282292062328e-324"
    = Return (S754_finite false 1 (-1074))
  ∧ PyFloat.float_of_string "9007199254740993"
    = Return (S754_finite false 4503599627370496 1).
Proof. vm_compute. repeat split. Qed.

Example strip_newline :
  PyStr.strip (String "009" (String " " (String "4" (String "2" (String "010" ""))))) = "42".
Proof. reflexivity. Qed.

(** The whole report on the Raspberry Pi of the examples. *)
Example get_stats_on_pi_host :
  ∃ report,
    get_stats (new pi_host) [] = (Return report, [])
    ∧ report !! "success" = Some (PBool true)
    ∧ report !! "error" = None
    ∧ report !! "os" = Some (PDict (os_dict "myhost" "Linux" "aarch64"))
    ∧ report !! "cpuTemp" = Some (PFloat (of_decimal false 457 (-1)))
    ∧ report !! "cpuUsage"
      = Some (PList [PFloat (of_decimal false 235 (-1));
                     PFloat (of_decimal false 779 (-1))])
    ∧ report !! "memoryUsage"
      = Some (PDict (memory_dict 3000000000 8000000000)).
Proof.
  exists (stats_dict (os_dict "myhost" "Linux" "aarch64")
            (of_decimal false 457 (-1))
            [of_decimal false 235 (-1); of_decimal false 779 (-1)]
            (memory_dict 3000000000 8000000000)).
  split; [vm_compute; reflexivity|]. repeat split.
Qed.

(** On the host where everything fails each query logs once, in the order
    of the calls, and the report still has success true. *)
Example get_stats_on_bare_host :
  ∃ report,
    get_stats (new bare_host) []
    = (Return report,
       [ LogRecord ERROR "Error getting OS info: gethostname failed";
         LogRecord WARNING "No thermal zone found for CPU temperature";
         LogRecord ERROR "Error getting CPU usage: sampling failed";
         LogRecord ERROR "Error getting memory usage: no memory statistics" ])
    ∧ report !! "success" = Some (PBool true)
    ∧ report !! "os" = Some (PDict unknown_os)
    ∧ report !! "cpuTemp" = Some (PFloat zero)
    ∧ report !! "cpuUsage" = Some (PList [PFloat zero])
    ∧ report !! "memoryUsage" = Some (PDict (memory_dict 0 0)).
Proof.
  exists (stats_dict unknown_os zero [zero] (memory_dict 0 0)).
  split; [vm_compute; reflexivity|]. repeat split.
Qed.

(** ** Running computations *)

Section Steps.
Context {A B : Type}.

Lemma bind_returns (m : py A) (k : A → py B) log a log' :
  m log = (Return a, log') → (m ≫= k) log = k a log'.
Proof. intros H. unfold mbind, py_bind. now rewrite H. Qed.

Lemma bind_raises (m : py A) (k : A → py B) log e log' :
  m log = (Raise e, log') → (m ≫= k) log = (Raise e, log').
Proof. intros H. unfold mbind, py_bind. now rewrite H. Qed.

Lemma try_returns (m : py A) (hd : exn → py A) log a log' :
  m log = (Return a, log') → try_except m hd log = (Return a, log').
Proof. intros H. unfold try_except. now rewrite H. Qed.

(** A [try] whose handler formats the exception, logs and returns. *)
Lemma try_handled (m : py A) lv prefix (v : A) log e log' :
  m log = (Raise e, log') →
  try_except m
    (λ e, msg ← call (py_str e); logger_log lv (prefix ++ msg);; mret v) log
  = handled lv prefix v e log'.
Proof.
  intros H. unfold try_except, handled. rewrite H.
  destruct (is_exception e); [|reflexivity].
  unfold mbind, py_bind, call. destruct (py_str e); reflexivity.
Qed.

Lemma handled_absorbed lv prefix (v : A) e s log :
  absorbed e s →
  handled lv prefix v e log
  = (Return v, (log ++ [LogRecord lv (prefix ++ s)])%list).
Proof. intros [He Hs]. unfold handled. now rewrite He, Hs. Qed.


End Steps.

Lemma exn_is_ordinary (class text : string) : ordinary (Exn class text).
Proof. exists text. split; reflexivity. Qed.

(** [float] raises nothing but its [ValueError]. *)
Lemma float_of_string_raises (s : string) (e : exn) :
  PyFloat.float_of_string s = Raise e → e = PyFloat.ValueError s.
Proof.
  unfold PyFloat.float_of_string.
  destruct (PyFloat.without_underscores _); [|now intros [= <-]].
  destruct (PyFloat.ascii_strtod _) as [[x [|c r]]|];
    (discriminate || now intros [= <-]).
Qed.

(** ** [_get_os_info] *)

Lemma os_dict_lookup (n p a : string) :
  os_dict n p a !! "hostname" = Some (PStr n)
  ∧ os_dict n p a !! "platform" = Some (PStr p)
  ∧ os_dict n p a !! "arch" = Some (PStr a).
Proof. repeat split. Qed.

Lemma os_info_success h log n p a :
  gethostname h = Return n → system h = Return p → machine h = Return a →
  _get_os_info h log = (Return (os_dict (getenv h "PUBLIC_HOSTNAME" n) p a), log).
Proof.
  intros Hn Hp Ha. unfold _get_os_info, try_except, mbind, py_bind, call.
  rewrite Hn, Hp, Ha. reflexivity.
Qed.

Lemma os_info_raised h log e :
  os_info_failure h = Some e →
  _get_os_info h log = handled ERROR "Error getting OS info: " unknown_os e log.
Proof.
  intros Hf. unfold _get_os_info, logger_error. apply try_handled.
  unfold os_info_failure in Hf. unfold mbind, py_bind, call.
  destruct (gethostname h), (system h), (machine h);
    try discriminate; injection Hf as <-; reflexivity.
Qed.

Lemma os_info_cases (h : host) :
  (∃ n p a, gethostname h = Return n ∧ system h = Return p
            ∧ machine h = Return a ∧ os_info_failure h = None)
  ∨ ∃ e, os_info_failure h = Some e
         ∧ (gethostname h = Raise e ∨ system h = Raise e ∨ machine h = Raise e).
Proof.
  unfold os_info_failure.
  destruct (gethostname h) as [n|e1]; [|right; eauto].
  destruct (system h) as [p|e2]; [|right; eauto].
  destruct (machine h) as [a|e3]; [|right; eauto].
  left. eauto 10.
Qed.

(** ** [_get_cpu_temperature] *)

Lemma path_exists_true h path n :
  files h !! path = Some n → path_exists h path = true.
Proof. intros H. unfold path_exists. now rewrite H. Qed.

Lemma path_exists_false h path :
  files h !! path = None → path_exists h path = false.
Proof. intros H. unfold path_exists. now rewrite H. Qed.

(** A candidate that does not exist is passed over. *)
Lemma read_thermal_zone_skip h path rest log :
  files h !! path = None →
  read_thermal_zone h (path :: rest) log = read_thermal_zone h rest log.
Proof. intros H. simpl. now rewrite (path_exists_false _ _ H). Qed.

(** A candidate that exists ends the loop, whatever the later ones are. *)
Lemma read_thermal_zone_value h path rest log n x :
  files h !! path = Some n → usable n x →
  read_thermal_zone h (path :: rest) log
  = (Return (Some (round1 (Float64.div x thousand))), log).
Proof.
  intros H Hu. simpl. rewrite (path_exists_true _ _ _ H).
  unfold mbind, py_bind, call, read_text. rewrite H.
  destruct Hu as [(text & -> & Hx) | ->]; simpl; now rewrite ?Hx.
Qed.

Lemma read_thermal_zone_raises h path rest log n e :
  files h !! path = Some n → unusable n e →
  read_thermal_zone h (path :: rest) log = (Raise e, log).
Proof.
  intros H Hu. simpl. rewrite (path_exists_true _ _ _ H).
  unfold mbind, py_bind, call, read_text. rewrite H.
  destruct Hu as [-> | [(text & -> & Hx) | ->]]; simpl; now rewrite ?Hx.
Qed.

(** The loop over the two candidates, on the node it settles on. *)
Lemma consulted_loop h n log :
  consulted h n →
  ∃ path, files h !! path = Some n
          ∧ read_thermal_zone h thermal_paths log
            = read_thermal_zone h [path] log.
Proof.
  intros [H | [H0 H]].
  - exists thermal_zone0. split; [exact H|]. unfold thermal_paths. simpl.
    now rewrite (path_exists_true _ _ _ H).
  - exists virtual_thermal_zone0. split; [exact H|]. unfold thermal_paths.
    now rewrite read_thermal_zone_skip.
Qed.

Lemma temperature_measured_node h log n x :
  consulted h n → usable n x →
  _get_cpu_temperature h log = (Return (round1 (Float64.div x thousand)), log).
Proof.
  intros Hc Hu. unfold _get_cpu_temperature. apply try_returns.
  destruct (consulted_loop h _ log Hc) as (path & H & E).
  rewrite (bind_returns _ _ log
             (Some (round1 (Float64.div x thousand))) log); [reflexivity|].
  rewrite E. eauto using read_thermal_zone_value.
Qed.

Lemma temperature_measured h log text x :
  consulted h (Readable text) →
  PyFloat.float_of_string (PyStr.strip text) = Return x →
  _get_cpu_temperature h log = (Return (round1 (Float64.div x thousand)), log).
Proof.
  intros Hc Hx. apply temperature_measured_node with (Readable text);
    [exact Hc | left; eauto].
Qed.

Lemma temperature_absent h log :
  files h !! thermal_zone0 = None →
  files h !! virtual_thermal_zone0 = None →
  _get_cpu_temperature h log
  = (Return zero,
     (log ++ [LogRecord WARNING "No thermal zone found for CPU temperature"])%list).
Proof.
  intros H1 H2. unfold _get_cpu_temperature. apply try_returns.
  rewrite (bind_returns _ _ log None log); [reflexivity|].
  unfold thermal_paths. now rewrite !read_thermal_zone_skip.
Qed.

Lemma temperature_raised h log n e :
  consulted h n → unusable n e →
  _get_cpu_temperature h log
  = handled ERROR "Error reading CPU temperature: " zero e log.
Proof.
  intros Hc Hu. unfold _get_cpu_temperature, logger_error.
  apply try_handled. apply bind_raises.
  destruct (consulted_loop h _ log Hc) as (path & H & ->).
  eauto using read_thermal_zone_raises.
Qed.

(** Every node is either turned into a number or unusable. *)
Lemma node_cases (n : file_node) :
  (∃ x, usable n x) ∨ ∃ e, unusable n e.
Proof.
  destruct n as [text | [x | e] | e].
  - destruct (PyFloat.float_of_string (PyStr.strip text)) as [x | e] eqn:Hx.
    + left. exists x. left. eauto.
    + right. exists e. right. left. eauto.
  - left. exists x. now right.
  - right. exists e. right. now right.
  - right. exists e. now left.
Qed.

Lemma usable_not_unusable n x e : usable n x → unusable n e → False.
Proof.
  intros [(text & -> & Hx) | ->] [Hu | [(text' & Hu & Hx') | Hu]];
    try discriminate.
  injection Hu as <-. congruence.
Qed.

Lemma consulted_unique h n n' : consulted h n → consulted h n' → n = n'.
Proof. intros [H | [H0 H]] [H' | [H0' H']]; congruence. Qed.

(** Either no candidate exists or the loop settles on one. *)
Lemma consulted_cases (h : host) :
  (files h !! thermal_zone0 = None ∧ files h !! virtual_thermal_zone0 = None)
  ∨ ∃ n, consulted h n.
Proof.
  unfold consulted.
  destruct (files h !! thermal_zone0) as [n|] eqn:H1; [right; eauto|].
  destruct (files h !! virtual_thermal_zone0) as [n|] eqn:H2; [right; eauto|].
  now left.
Qed.

(** ** [_get_cpu_usage] and [_get_memory_usage] *)

Lemma cpu_usage_sampled h log per_cpu :
  cpu_percent h = Return per_cpu →
  _get_cpu_usage h log = (Return (map round1 per_cpu), log).
Proof.
  intros H. unfold _get_cpu_usage, try_except, mbind, py_bind, call.
  now rewrite H.
Qed.

Lemma cpu_usage_raised h log e :
  cpu_percent h = Raise e →
  _get_cpu_usage h log = handled ERROR "Error getting CPU usage: " [zero] e log.
Proof.
  intros H. unfold _get_cpu_usage, logger_error. apply try_handled.
  unfold mbind, py_bind, call. now rewrite H.
Qed.

Lemma memory_measured h log mem :
  virtual_memory h = Return mem →
  _get_memory_usage h log = (Return (memory_dict (used mem) (total mem)), log).
Proof.
  intros H. unfold _get_memory_usage, try_except, mbind, py_bind, call.
  now rewrite H.
Qed.

Lemma memory_raised h log e :
  virtual_memory h = Raise e →
  _get_memory_usage h log
  = handled ERROR "Error getting memory usage: " (memory_dict 0 0) e log.
Proof.
  intros H. unfold _get_memory_usage, logger_error. apply try_handled.
  unfold mbind, py_bind, call. now rewrite H.
Qed.


(** ** The claims about the four queries *)

(** C2: the temperature query reads the first candidate path that exists
    (the thermal zone under /sys/class before the one under /sys/devices),
    parses its whole text as a number, divides by 1000.0 and rounds to one
    decimal; a file holding 45678 gives 45.7. *)
Theorem temperature_of_first_existing_path (h : host) log text :
  consulted h (Readable text) →
  (∀ x, PyFloat.float_of_string (PyStr.strip text) = Return x →
        _get_cpu_temperature h log = (Return (round1 (div x thousand)), log))
  ∧ (text = "45678" →
     _get_cpu_temperature h log = (Return (of_decimal false 457 (-1)), log)).
Proof.
  intros Hc. split.
  - intros x Hx. now apply temperature_measured with text.
  - intros ->.
    rewrite (temperature_measured h log "45678"
               (S754_finite false 6277936516694016 (-37)) Hc)
      by (vm_compute; reflexivity).
    vm_compute. reflexivity.
Qed.

Lemma temperature_of_first_existing_path_witness :
  _get_cpu_temperature pi_host []
  = (Return (S754_finite false 6431703217838490 (-47)), []).
Proof.
  assert (Hc : consulted pi_host (Readable "45678")) by (left; reflexivity).
  exact (proj2 (temperature_of_first_existing_path pi_host [] "45678" Hc) eq_refl).
Defined.




(** C4: when identity introspection succeeds, the reported hostname is the
    value of PUBLIC_HOSTNAME if that variable is set, whatever the network
    hostname is, and the network hostname if it is unset. *)
Theorem hostname_override (h : host) log name plat arch :
  gethostname h = Return name →
  system h = Return plat →
  machine h = Return arch →
  ∃ d, _get_os_info h log = (Return d, log)
       ∧ d !! "platform" = Some (PStr plat)
       ∧ d !! "arch" = Some (PStr arch)
       ∧ (∀ s, environ h !! "PUBLIC_HOSTNAME" = Some s →
               d !! "hostname" = Some (PStr s))
       ∧ (environ h !! "PUBLIC_HOSTNAME" = None →
          d !! "hostname" = Some (PStr name)).
Proof.
  intros Hn Hp Ha.
  exists (os_dict (getenv h "PUBLIC_HOSTNAME" name) plat arch).
  split; [apply os_info_success; assumption|].
  destruct (os_dict_lookup (getenv h "PUBLIC_HOSTNAME" name) plat arch)
    as (Hh & Hpl & Har).
  repeat split; try assumption.
  - intros s Hs. rewrite Hh. unfold getenv. now rewrite Hs.
  - intros Hs. rewrite Hh. unfold getenv. now rewrite Hs.
Qed.

Lemma hostname_override_witness :
  ∃ d, _get_os_info pi_host [] = (Return d, [])
       ∧ d !! "hostname" = Some (PStr "myhost").
Proof.
  destruct (hostname_override pi_host [] "raspberrypi" "Linux" "aarch64"
              eq_refl eq_refl eq_refl) as (d & Hd & _ & _ & Hset & _).
  exists d. split; [exact Hd|]. apply Hset. reflexivity.
Defined.







(** ** Rounding to one decimal keeps a percentage a percentage *)

Section Round1Range.

Lemma digits2_pos_bound (m : positive) :
  Zpos m < 2 ^ Zpos (digits2_pos m).
Proof.
  induction m as [m IH | m IH |]; simpl digits2_pos;
    rewrite ?Pos2Z.inj_succ, ?Z.pow_succ_r by lia; lia.
Qed.

(** The mantissa of a finite binary64 value has at most 53 bits. *)
Lemma binary64_mantissa s m e :
  is_binary64 (S754_finite s m e) = true → Zpos m < 2 ^ 53.
Proof.
  unfold is_binary64, valid_binary, bounded, canonical_mantissa, fexp.
  intros H. apply andb_prop in H as [H _]. apply Z.eqb_eq in H.
  pose proof (digits2_pos_bound m) as Hm.
  assert (Hd : Zpos (digits2_pos m) ≤ 53) by (unfold prec in H; lia).
  eapply Z.lt_le_trans; [exact Hm|].
  apply Z.pow_le_mono_r; lia.
Qed.

Lemma hundred_bits : hundred = S754_finite false 7036874417766400 (-46).
Proof. vm_compute. reflexivity. Qed.

(** The order on finite positive floats, read on mantissa and exponent. *)
Lemma leb_finite_spec m e m' e' :
  Float64.leb (S754_finite false m e) (S754_finite false m' e') = true →
  e < e' ∨ (e = e' ∧ Zpos m ≤ Zpos m').
Proof.
  unfold Float64.leb, SFleb, SFcompare.
  change (Pos.compare_cont Eq m m') with (Pos.compare m m').
  destruct (Z.compare_spec e e') as [-> | Hlt | Hgt];
    [|left; exact Hlt|discriminate].
  destruct (Pos.compare_spec m m') as [-> | Hlt | Hgt];
    [right; lia | right; lia | discriminate].
Qed.

(** A float that is at most 100.0 has a negative exponent and at most
    1000 tenths. *)
Lemma le_hundred_tenths m e :
  is_binary64 (S754_finite false m e) = true →
  Float64.leb (S754_finite false m e) hundred = true →
  e < 0 ∧ 10 * Zpos m ≤ 1000 * 2 ^ (- e).
Proof.
  intros Hv Hle. apply binary64_mantissa in Hv.
  rewrite hundred_bits in Hle. apply leb_finite_spec in Hle.
  assert (H53 : 2 ^ 53 = 9007199254740992) by reflexivity.
  rewrite H53 in Hv. clear H53.
  destruct Hle as [Hlt | [-> Hm]].
  - split; [lia|].
    assert (Hp : 2 ^ 47 ≤ 2 ^ (- e)) by (apply Z.pow_le_mono_r; lia).
    assert (H47 : 2 ^ 47 = 140737488355328) by reflexivity.
    rewrite H47 in Hp. clear H47. lia.
  - split; [lia|].
    assert (H46 : 2 ^ (- -46) = 70368744177664) by reflexivity.
    rewrite H46. lia.
Qed.

Lemma div_half_even_range n d :
  0 < d → 0 ≤ n ≤ 1000 * d → 0 ≤ div_half_even n d ≤ 1000.
Proof.
  intros Hd Hn. unfold div_half_even.
  pose proof (Z.div_mod n d ltac:(lia)) as Hdm.
  pose proof (Z.mod_pos_bound n d Hd) as Hr.
  assert (Hq0 : 0 ≤ n / d) by (apply Z.div_pos; lia).
  assert (Hq : n / d ≤ 1000) by (apply Z.div_le_upper_bound; lia).
  assert (Htop : n / d = 1000 → n mod d = 0) by nia.
  destruct (Z.compare_spec (2 * (n mod d)) d) as [He | Hl | Hg].
  - destruct (Z.even (n / d)); lia.
  - lia.
  - assert (n / d ≠ 1000) by lia. lia.
Qed.

(** The floats nearest to 0.1, 0.2, ..., 100.0 are percentages. *)
Lemma tenth_in_range_table :
  forallb (λ k, in_percent_range (of_ratio false (Pos.of_nat k) 10))
          (seq 1 1000) = true.
Proof. vm_compute. reflexivity. Qed.

Lemma tenth_in_range (n : positive) :
  Zpos n ≤ 1000 → in_percent_range (of_ratio false n 10) = true.
Proof.
  intros Hn.
  pose proof (proj1 (forallb_forall _ _) tenth_in_range_table (Pos.to_nat n))
    as H.
  cbv beta in H. rewrite Pos2Nat.id in H. apply H.
  apply in_seq. lia.
Qed.

Lemma round1_in_range (x : float) :
  is_binary64 x = true →
  in_percent_range x = true →
  in_percent_range (round1 x) = true.
Proof.
  intros Hv Hr. destruct x as [s | s | | s m e]; try exact Hr.
  apply andb_prop in Hr as [Hlo Hhi].
  destruct s; [discriminate|].
  destruct (le_hundred_tenths m e Hv Hhi) as [He Hm].
  unfold round1, tenths.
  destruct (Z.leb_spec 0 e) as [|_]; [lia|].
  pose proof (div_half_even_range (10 * Zpos m) (2 ^ (- e))
                ltac:(apply Z.pow_pos_nonneg; lia) ltac:(lia)) as Hrange.
  destruct (div_half_even (10 * Zpos m) (2 ^ (- e))) as [|n|n];
    [reflexivity | apply tenth_in_range; lia | reflexivity].
Qed.

End Round1Range.

(** ** What the four queries return *)

Lemma handled_returns {A} lv prefix (v : A) e log v' log' :
  handled lv prefix v e log = (Return v', log') →
  v' = v ∧ ∃ s, absorbed e s ∧ log' = (log ++ [LogRecord lv (prefix ++ s)])%list.
Proof.
  unfold handled, absorbed. destruct (is_exception e); [|discriminate].
  destruct (py_str e) as [s|]; [|discriminate]. intros [= <- <-]. eauto.
Qed.

Lemma os_info_returned h log os log' :
  _get_os_info h log = (Return os, log') → os_field h os.
Proof.
  destruct (os_info_cases h) as [(n & p & a & Hn & Hp & Ha & _) | (e & Hf & _)].
  - rewrite (os_info_success _ _ _ _ _ Hn Hp Ha). intros [= <- _].
    left. eauto 10.
  - rewrite (os_info_raised _ _ _ Hf). intros H.
    apply handled_returns in H as [-> _]. right. eauto.
Qed.

Lemma temperature_returned h log t log' :
  _get_cpu_temperature h log = (Return t, log') → temperature_field h t.
Proof.
  destruct (consulted_cases h) as [[H1 H2] | [n Hc]].
  - rewrite temperature_absent by assumption. intros [= <- _].
    right. auto.
  - destruct (node_cases n) as [[x Hu] | [e Hu]].
    + rewrite (temperature_measured_node _ _ _ _ Hc Hu). intros [= <- _].
      left. eauto.
    + rewrite (temperature_raised _ _ _ _ Hc Hu). intros H.
      apply handled_returns in H as [-> _]. right. eauto 10.
Qed.

Lemma cpu_usage_returned h log l log' :
  _get_cpu_usage h log = (Return l, log') → usage_field h l.
Proof.
  destruct (cpu_percent h) as [per_cpu | e] eqn:H.
  - rewrite (cpu_usage_sampled _ _ _ H). intros [= <- _]. left. eauto.
  - rewrite (cpu_usage_raised _ _ _ H). intros Hr.
    apply handled_returns in Hr as [-> _]. right. eauto.
Qed.

Lemma memory_returned h log d log' :
  _get_memory_usage h log = (Return d, log') → memory_field h d.
Proof.
  destruct (virtual_memory h) as [mem | e] eqn:H.
  - rewrite (memory_measured _ _ _ H). intros [= <- _]. left. eauto.
  - rewrite (memory_raised _ _ _ H). intros Hr.
    apply handled_returns in Hr as [-> _]. right. eauto.
Qed.

(** On a host whose calls raise ordinary exceptions only, each query
    returns. *)
Lemma os_info_returns h log :
  raises_ordinary (gethostname h) → raises_ordinary (system h) →
  raises_ordinary (machine h) →
  ∃ os log', _get_os_info h log = (Return os, log').
Proof.
  intros O1 O2 O3.
  destruct (os_info_cases h) as [(n & p & a & Hn & Hp & Ha & _) | (e & Hf & He)].
  - rewrite (os_info_success _ _ _ _ _ Hn Hp Ha). eauto.
  - assert (Hord : ordinary e).
    { destruct He as [H | [H | H]];
        [rewrite H in O1 | rewrite H in O2 | rewrite H in O3]; assumption. }
    destruct Hord as [s Habs].
    rewrite (os_info_raised _ _ _ Hf), (handled_absorbed _ _ _ _ _ _ Habs).
    eauto.
Qed.

Lemma temperature_returns h log :
  (∀ n e, consulted h n → unusable n e → ordinary e) →
  ∃ t log', _get_cpu_temperature h log = (Return t, log').
Proof.
  intros Hord. destruct (consulted_cases h) as [[H1 H2] | [n Hc]].
  - rewrite temperature_absent by assumption. eauto.
  - destruct (node_cases n) as [[x Hu] | [e Hu]].
    + rewrite (temperature_measured_node _ _ _ _ Hc Hu). eauto.
    + destruct (Hord n e Hc Hu) as [s Ha].
      rewrite (temperature_raised _ _ _ _ Hc Hu),
        (handled_absorbed _ _ _ _ _ _ Ha). eauto.
Qed.

Lemma cpu_usage_returns h log :
  raises_ordinary (cpu_percent h) →
  ∃ l log', _get_cpu_usage h log = (Return l, log').
Proof.
  intros Hord. destruct (cpu_percent h) as [per_cpu | e] eqn:H.
  - rewrite (cpu_usage_sampled _ _ _ H). eauto.
  - destruct Hord as [s Ha].
    rewrite (cpu_usage_raised _ _ _ H), (handled_absorbed _ _ _ _ _ _ Ha).
    eauto.
Qed.

Lemma memory_returns h log :
  raises_ordinary (virtual_memory h) →
  ∃ d log', _get_memory_usage h log = (Return d, log').
Proof.
  intros Hord. destruct (virtual_memory h) as [mem | e] eqn:H.
  - rewrite (memory_measured _ _ _ H). eauto.
  - destruct Hord as [s Ha].
    rewrite (memory_raised _ _ _ H), (handled_absorbed _ _ _ _ _ _ Ha).
    eauto.
Qed.

(** ** [get_stats] *)

(** The handler of [get_stats] formats the exception twice, for the log
    and for the report. *)
Lemma get_stats_unfold (self : instance) log :
  get_stats self log
  = match collect self log with
    | (Raise e, log') =>
        if is_exception e then
          match py_str e with
          | Return s =>
              (Return (failure_report s),
               (log' ++ [LogRecord ERROR
                           ("Error collecting hardware stats: " ++ s)])%list)
          | Raise e' => (Raise e', log')
          end
        else (Raise e, log')
    | r => r
    end.
Proof.
  unfold get_stats, try_except.
  destruct (collect self log) as [[r | e] log']; [reflexivity|].
  destruct (is_exception e); [|reflexivity].
  unfold mbind, py_bind, call. destruct (py_str e); reflexivity.
Qed.

Lemma collect_returns (self : instance) log os l1 t l2 u l3 m l4 :
  self_get_os_info self log = (Return os, l1) →
  self_get_cpu_temperature self l1 = (Return t, l2) →
  self_get_cpu_usage self l2 = (Return u, l3) →
  self_get_memory_usage self l3 = (Return m, l4) →
  collect self log = (Return (stats_dict os t u m), l4).
Proof.
  intros H1 H2 H3 H4. unfold collect, mbind, py_bind.
  now rewrite H1, H2, H3, H4.
Qed.

(** The body returns nothing but the literal built from the four results
    of the methods. *)
Lemma collect_return_shape (self : instance) log r log' :
  collect self log = (Return r, log') →
  ∃ os l1 t l2 u l3 m,
    self_get_os_info self log = (Return os, l1)
    ∧ self_get_cpu_temperature self l1 = (Return t, l2)
    ∧ self_get_cpu_usage self l2 = (Return u, l3)
    ∧ self_get_memory_usage self l3 = (Return m, log')
    ∧ r = stats_dict os t u m.
Proof.
  unfold collect, mbind, py_bind.
  destruct (self_get_os_info self log) as [[os|] l1] eqn:H1; [|discriminate].
  destruct (self_get_cpu_temperature self l1) as [[t|] l2] eqn:H2;
    [|discriminate].
  destruct (self_get_cpu_usage self l2) as [[u|] l3] eqn:H3; [|discriminate].
  destruct (self_get_memory_usage self l3) as [[m|] l4] eqn:H4;
    [|discriminate].
  intros [= <- <-]. exists os, l1, t, l2, u, l3, m. auto.
Qed.

Lemma stats_dict_lookup os t u m :
  stats_dict os t u m !! "success" = Some (PBool true)
  ∧ stats_dict os t u m !! "error" = None
  ∧ stats_dict os t u m !! "os" = Some (PDict os)
  ∧ stats_dict os t u m !! "cpuTemp" = Some (PFloat t)
  ∧ stats_dict os t u m !! "cpuUsage" = Some (cpu_usage_value u)
  ∧ stats_dict os t u m !! "memoryUsage" = Some (PDict m).
Proof. repeat split. Qed.

Lemma failure_report_lookup s :
  failure_report s !! "success" = Some (PBool false)
  ∧ failure_report s !! "error" = Some (PStr s)
  ∧ failure_report s !! "os" = Some (PDict unknown_os)
  ∧ failure_report s !! "cpuTemp" = Some (PFloat zero)
  ∧ failure_report s !! "cpuUsage" = Some (PList [PFloat zero])
  ∧ failure_report s !! "memoryUsage" = Some (PDict (memory_dict 0 0)).
Proof. repeat split. Qed.

(** On an ordinary host the body of the [try] returns the literal. *)
Lemma collect_new h log :
  ordinary_host h →
  ∃ os t u m log',
    collect (new h) log = (Return (stats_dict os t u m), log')
    ∧ os_field h os ∧ temperature_field h t
    ∧ usage_field h u ∧ memory_field h m.
Proof.
  intros (O1 & O2 & O3 & Ot & Oc & Om).
  destruct (os_info_returns h log O1 O2 O3) as (os & l1 & H1).
  destruct (temperature_returns h l1 Ot) as (t & l2 & H2).
  destruct (cpu_usage_returns h l2 Oc) as (u & l3 & H3).
  destruct (memory_returns h l3 Om) as (m & l4 & H4).
  exists os, t, u, m, l4.
  split; [now apply collect_returns with l1 l2 l3|].
  split; [exact (os_info_returned _ _ _ _ H1)|].
  split; [exact (temperature_returned _ _ _ _ H2)|].
  split; [exact (cpu_usage_returned _ _ _ _ H3)|].
  exact (memory_returned _ _ _ _ H4).
Qed.

Lemma get_stats_new h log :
  ordinary_host h →
  ∃ os t u m log',
    get_stats (new h) log = (Return (stats_dict os t u m), log')
    ∧ collect (new h) log = (Return (stats_dict os t u m), log')
    ∧ os_field h os ∧ temperature_field h t
    ∧ usage_field h u ∧ memory_field h m.
Proof.
  intros Hord.
  destruct (collect_new h log Hord) as (os & t & u & m & log' & Hc & HF).
  exists os, t, u, m, log'. split; [|split; [exact Hc | exact HF]].
  rewrite get_stats_unfold, Hc. reflexivity.
Qed.

(** A report of [get_stats] is the literal or the failure report. *)
Lemma get_stats_returned (self : instance) log report log' :
  get_stats self log = (Return report, log') →
  (∃ os l1 t l2 u l3 m,
     self_get_os_info self log = (Return os, l1)
     ∧ self_get_cpu_temperature self l1 = (Return t, l2)
     ∧ self_get_cpu_usage self l2 = (Return u, l3)
     ∧ self_get_memory_usage self l3 = (Return m, log')
     ∧ report = stats_dict os t u m)
  ∨ ∃ s, report = failure_report s.
Proof.
  rewrite get_stats_unfold.
  destruct (collect self log) as [[r | e] l] eqn:Hc.
  - intros [= <- <-]. left. now apply collect_return_shape.
  - destruct (is_exception e); [|discriminate].
    destruct (py_str e) as [s|]; [|discriminate].
    intros [= <- _]. right. eauto.
Qed.



(** ** The example hosts raise ordinary exceptions *)

Lemma readable_unusable_ordinary text e :
  unusable (Readable text) e → ordinary e.
Proof.
  intros [H | [(text' & _ & Hx) | H]]; try discriminate.
  apply float_of_string_raises in Hx as ->. apply exn_is_ordinary.
Qed.

Lemma consulted_first h n n0 :
  files h !! thermal_zone0 = Some n0 → consulted h n → n = n0.
Proof. intros H0 [H | [H _]]; congruence. Qed.


Lemma not_consulted h n :
  files h !! thermal_zone0 = None →
  files h !! virtual_thermal_zone0 = None → consulted h n → False.
Proof. intros H0 H1 [H | [_ H]]; congruence. Qed.

Lemma pi_host_ordinary : ordinary_host pi_host.
Proof.
  repeat split; try exact I.
  intros n e Hc Hu.
  apply (consulted_first pi_host n (Readable "45678") eq_refl) in Hc as ->.
  now apply readable_unusable_ordinary with "45678".
Qed.


Lemma bare_host_ordinary : ordinary_host bare_host.
Proof.
  repeat split; try exact I; try apply exn_is_ordinary.
  intros n e Hc. destruct (not_consulted bare_host n eq_refl eq_refl Hc).
Qed.

(** ** The claims about ranges, memory and the report *)

(** C7, as the code has it: a sampled value of 150.0 is reported as 150.0,
    outside of the interval from 0.0 to 100.0; nothing in [_get_cpu_usage]
    clamps a sample. *)
Lemma cpu_usage_above_hundred :
  _get_cpu_usage overloaded_host [] = (Return [of_decimal false 150 0], [])
  ∧ in_percent_range (of_decimal false 150 0) = false.
Proof. split; vm_compute; reflexivity. Qed.

(** C7, amended: when every sample of the facility is a float between 0.0
    and 100.0 (or sampling raises), every element of a list returned by
    [_get_cpu_usage], and of the field cpuUsage of a report returned by
    [get_stats], is between 0.0 and 100.0; the list and the report are
    returned when the calls raise ordinary exceptions only. *)
Theorem cpu_usage_percentages (h : host) log :
  samples_are_percentages h →
  (∀ l log', _get_cpu_usage h log = (Return l, log') →
             Forall (λ x, in_percent_range x = true) l)
  ∧ (raises_ordinary (cpu_percent h) →
     ∃ l log', _get_cpu_usage h log = (Return l, log')
               ∧ Forall (λ x, in_percent_range x = true) l)
  ∧ (∀ report log', get_stats (new h) log = (Return report, log') →
       ∃ l, report !! "cpuUsage" = Some (PList (map PFloat l))
            ∧ Forall (λ x, in_percent_range x = true) l)
  ∧ (ordinary_host h →
     ∃ report log' l,
       get_stats (new h) log = (Return report, log')
       ∧ report !! "cpuUsage" = Some (PList (map PFloat l))
       ∧ Forall (λ x, in_percent_range x = true) l).
Proof.
  intros Hs.
  assert (Hfield : ∀ l, usage_field h l →
                        Forall (λ x, in_percent_range x = true) l).
  { intros l [(per_cpu & Hp & ->) | [_ ->]].
    - unfold samples_are_percentages in Hs. rewrite Hp in Hs.
      apply List.Forall_map. eapply Forall_impl; [exact Hs|].
      intros x [Hv Hr]. now apply round1_in_range.
    - repeat constructor. }
  assert (Hrep : ∀ report log', get_stats (new h) log = (Return report, log') →
            ∃ l, report !! "cpuUsage" = Some (PList (map PFloat l))
                 ∧ Forall (λ x, in_percent_range x = true) l).
  { intros report log' Hg.
    destruct (get_stats_returned _ _ _ _ Hg)
      as [(os & l1 & t & l2 & u & l3 & m & _ & _ & Hu & _ & ->) | [s ->]].
    - exists u. split; [apply stats_dict_lookup|].
      simpl in Hu. eauto using cpu_usage_returned.
    - exists [zero]. split; [reflexivity | repeat constructor]. }
  split; [|split; [|split]].
  - intros l log' Hl. eauto using cpu_usage_returned.
  - intros Hord. destruct (cpu_usage_returns h log Hord) as (l & log' & Hl).
    exists l, log'. eauto using cpu_usage_returned.
  - exact Hrep.
  - intros Hord.
    destruct (get_stats_new h log Hord) as (os & t & u & m & log' & Hg & _).
    destruct (Hrep _ _ Hg) as (l & Hl & Hf). eauto 10.
Qed.

Lemma cpu_usage_percentages_witness :
  ∃ l log', _get_cpu_usage pi_host [] = (Return l, log')
            ∧ Forall (λ x, in_percent_range x = true) l.
Proof.
  refine (proj1 (proj2 (cpu_usage_percentages pi_host [] _)) I).
  unfold samples_are_percentages. simpl.
  repeat constructor; vm_compute; reflexivity.
Defined.







(** C9, as the code has it: an exception without message (a failed
    [assert], say) raised in the aggregation step gives a report whose
    error is the empty string. *)
Lemma error_message_may_be_empty :
  ∃ report log',
    get_stats (broken_instance (Exn "AssertionError" "")) [] = (Return report, log')
    ∧ report !! "success" = Some (PBool false)
    ∧ report !! "error" = Some (PStr "").
Proof.
  exists (failure_report ""),
    [LogRecord ERROR "Error collecting hardware stats: "].
  split; [vm_compute; reflexivity|]. split; reflexivity.
Qed.

(** C9, amended: a report of the aggregation step itself has success true
    and no error, and on a host whose calls raise ordinary exceptions only
    the failures inside the four queries never change that; when the
    aggregation step raises an instance of [Exception] whose [str] returns,
    also after some of the calls returned, the report has success false,
    the text of the exception as error (empty when the exception has no
    message) and the fallback in every other field. *)
Theorem success_flag (self : instance) log :
  (∀ report log', collect self log = (Return report, log') →
     get_stats self log = (Return report, log')
     ∧ report !! "success" = Some (PBool true)
     ∧ report !! "error" = None)
  ∧ (∀ h, ordinary_host h →
       ∃ report log',
         get_stats (new h) log = (Return report, log')
         ∧ report !! "success" = Some (PBool true))
  ∧ (∀ os l1 t l2 u l3 e l4,
       self_get_os_info self log = (Return os, l1) →
       self_get_cpu_temperature self l1 = (Return t, l2) →
       self_get_cpu_usage self l2 = (Return u, l3) →
       self_get_memory_usage self l3 = (Raise e, l4) →
       collect self log = (Raise e, l4))
  ∧ (∀ e s log', collect self log = (Raise e, log') → absorbed e s →
       ∃ report,
         get_stats self log
         = (Return report,
            (log' ++ [LogRecord ERROR
                        ("Error collecting hardware stats: " ++ s)])%list)
         ∧ report !! "success" = Some (PBool false)
         ∧ report !! "error" = Some (PStr s)
         ∧ report !! "os" = Some (PDict (os_dict "unknown" "unknown" "unknown"))
         ∧ report !! "cpuTemp" = Some (PFloat zero)
         ∧ report !! "cpuUsage" = Some (PList [PFloat zero])
         ∧ report !! "memoryUsage" = Some (PDict (memory_dict 0 0))).
Proof.
  split; [|split; [|split]].
  - intros report log' Hc.
    destruct (collect_return_shape _ _ _ _ Hc)
      as (os & l1 & t & l2 & u & l3 & m & _ & _ & _ & _ & ->).
    rewrite get_stats_unfold, Hc. repeat split.
  - intros h Hord.
    destruct (get_stats_new h log Hord) as (os & t & u & m & log' & Hg & _).
    exists (stats_dict os t u m), log'. split; [exact Hg | reflexivity].
  - intros os l1 t l2 u l3 e l4 H1 H2 H3 H4.
    unfold collect, mbind, py_bind. now rewrite H1, H2, H3, H4.
  - intros e s log' Hc [Hexc Hstr]. exists (failure_report s).
    rewrite get_stats_unfold, Hc, Hexc, Hstr. repeat split.
Qed.

Lemma success_flag_witness :
  ∃ report,
    get_stats (broken_instance (Exn "RuntimeError" "injected")) []
    = (Return report,
       [LogRecord ERROR "Error collecting hardware stats: injected"])
    ∧ report !! "success" = Some (PBool false)
    ∧ report !! "error" = Some (PStr "injected")
    ∧ report !! "os" = Some (PDict (os_dict "unknown" "unknown" "unknown"))
    ∧ report !! "cpuTemp" = Some (PFloat zero)
    ∧ report !! "cpuUsage" = Some (PList [PFloat zero])
    ∧ report !! "memoryUsage" = Some (PDict (memory_dict 0 0)).
Proof.
  pose (e := Exn "RuntimeError" "injected").
  destruct (success_flag (broken_instance e) []) as (_ & _ & Hpartial & Hfail).
  apply (Hfail e "injected" []); [|split; reflexivity].
  eapply Hpartial; vm_compute; reflexivity.
Defined.

(** C10, as the code has it: when sampling raises an exception that cannot
    be formatted, the handler of [_get_cpu_usage] raises while it formats
    it, the [except] branch of [get_stats] is taken on an instance nobody
    touched, and the report has success false and a field error. *)
Lemma failure_branch_reached :
  ∃ report log',
    get_stats (new unprintable_host) [] = (Return report, log')
    ∧ report !! "success" = Some (PBool false)
    ∧ report !! "error" = Some (PStr "__str__ returned non-string").
Proof.
  exists (failure_report "__str__ returned non-string"),
    [LogRecord ERROR
       "Error collecting hardware stats: __str__ returned non-string"].
  split; [vm_compute; reflexivity|]. split; reflexivity.
Qed.

(** C10, amended: on every host whose calls raise nothing but instances of
    [Exception] whose [str] returns, each of the four queries returns, so
    the body of the [try] of [get_stats] never raises, its [except] branch
    is never taken, and the report has success true and no field error. *)
Theorem failure_branch_unreachable (h : host) log :
  ordinary_host h →
  (∀ l, ∃ v l', _get_os_info h l = (Return v, l'))
  ∧ (∀ l, ∃ v l', _get_cpu_temperature h l = (Return v, l'))
  ∧ (∀ l, ∃ v l', _get_cpu_usage h l = (Return v, l'))
  ∧ (∀ l, ∃ v l', _get_memory_usage h l = (Return v, l'))
  ∧ (∀ e log', collect (new h) log ≠ (Raise e, log'))
  ∧ ∃ report log',
      get_stats (new h) log = (Return report, log')
      ∧ collect (new h) log = (Return report, log')
      ∧ report !! "success" = Some (PBool true)
      ∧ report !! "error" = None.
Proof.
  intros Hord.
  destruct (get_stats_new h log Hord) as (os & t & u & m & log' & Hg & Hc & _).
  destruct Hord as (O1 & O2 & O3 & Ot & Oc & Om).
  repeat split.
  - intros l. now apply os_info_returns.
  - intros l. now apply temperature_returns.
  - intros l. now apply cpu_usage_returns.
  - intros l. now apply memory_returns.
  - intros e l. rewrite Hc. discriminate.
  - exists (stats_dict os t u m), log'. repeat split; assumption.
Qed.

Lemma failure_branch_unreachable_witness :
  ∃ report log',
    get_stats (new bare_host) [] = (Return report, log')
    ∧ collect (new bare_host) [] = (Return report, log')
    ∧ report !! "success" = Some (PBool true)
    ∧ report !! "error" = None.
Proof.
  exact (proj2 (proj2 (proj2 (proj2 (proj2
           (failure_branch_unreachable bare_host [] bare_host_ordinary)))))).
Defined.

(** * Further properties of the collector *)

(** ** Construction *)

(** X1: constructing the collector logs that it starts and probes
    [psutil]: when the probe returns, or raises an instance of [Exception]
    whose [str] returns, construction succeeds with a second record, at
    level INFO for a probe that passed and at level WARNING, with the text
    of the exception, for one that failed, and the instance is the same in
    both cases; an exception that is no instance of [Exception] leaves
    construction after the first record. *)
Theorem construction_logs_probe (h : host) (probe : outcome float) log :
  let started :=
    (log ++ [LogRecord INFO "Initializing hardware stats collector"])%list in
  (∀ x, probe = Return x →
     construct h probe log
     = (Return (new h),
        (started ++ [LogRecord INFO
                       "Hardware stats collector initialized successfully"])%list))
  ∧ (∀ e s, probe = Raise e → absorbed e s →
       construct h probe log
       = (Return (new h),
          (started ++ [LogRecord WARNING
                         ("Could not validate system: " ++ s)])%list))
  ∧ (∀ e, probe = Raise e → is_exception e = false →
       construct h probe log = (Raise e, started)).
Proof.
  intros started. unfold started.
  unfold construct, __init__, _validate_system, try_except, mbind, py_bind,
    call, logger_info, logger_warning, logger_log, mret, py_ret.
  repeat split.
  - intros x ->. reflexivity.
  - intros e s -> [Hexc Hstr]. now rewrite Hexc, Hstr.
  - intros e -> Hexc. now rewrite Hexc.
Qed.

Lemma construction_logs_probe_witness :
  construct pi_host (Raise (Exn "RuntimeError" "no cpu times")) []
  = (Return (new pi_host),
     [LogRecord INFO "Initializing hardware stats collector";
      LogRecord WARNING "Could not validate system: no cpu times"]).
Proof.
  refine (proj1 (proj2 (construction_logs_probe pi_host
                          (Raise (Exn "RuntimeError" "no cpu times")) []))
            (Exn "RuntimeError" "no cpu times") "no cpu times" eq_refl _).
  split; reflexivity.
Defined.

(** ** What a query adds to the log *)

Lemma handled_shift {A} lv prefix (v : A) e log :
  handled lv prefix v e log = shifted log (handled lv prefix v e []).
Proof.
  unfold handled, shifted. destruct (is_exception e); simpl;
    [destruct (py_str e); simpl|]; now rewrite ?app_nil_r.
Qed.

Lemma os_info_shift h log :
  _get_os_info h log = shifted log (_get_os_info h []).
Proof.
  destruct (os_info_cases h) as [(n & p & a & Hn & Hp & Ha & _) | (e & Hf & _)].
  - rewrite !(os_info_success _ _ _ _ _ Hn Hp Ha). unfold shifted. simpl.
    now rewrite app_nil_r.
  - rewrite !(os_info_raised _ _ _ Hf). apply handled_shift.
Qed.

Lemma temperature_shift h log :
  _get_cpu_temperature h log = shifted log (_get_cpu_temperature h []).
Proof.
  destruct (consulted_cases h) as [[H1 H2] | [n Hc]].
  - now rewrite !temperature_absent by assumption.
  - destruct (node_cases n) as [[x Hu] | [e Hu]].
    + rewrite !(temperature_measured_node _ _ _ _ Hc Hu). unfold shifted.
      simpl. now rewrite app_nil_r.
    + rewrite !(temperature_raised _ _ _ _ Hc Hu). apply handled_shift.
Qed.

Lemma cpu_usage_shift h log :
  _get_cpu_usage h log = shifted log (_get_cpu_usage h []).
Proof.
  destruct (cpu_percent h) as [per_cpu | e] eqn:H.
  - rewrite !(cpu_usage_sampled _ _ _ H). unfold shifted. simpl.
    now rewrite app_nil_r.
  - rewrite !(cpu_usage_raised _ _ _ H). apply handled_shift.
Qed.

Lemma memory_shift h log :
  _get_memory_usage h log = shifted log (_get_memory_usage h []).
Proof.
  destruct (virtual_memory h) as [mem | e] eqn:H.
  - rewrite !(memory_measured _ _ _ H). unfold shifted. simpl.
    now rewrite app_nil_r.
  - rewrite !(memory_raised _ _ _ H). apply handled_shift.
Qed.

(** The report and the records [get_stats] adds, from those of the four
    queries. *)
Lemma get_stats_frame h os a1 t a2 u a3 m a4 log :
  _get_os_info h [] = (Return os, a1) →
  _get_cpu_temperature h [] = (Return t, a2) →
  _get_cpu_usage h [] = (Return u, a3) →
  _get_memory_usage h [] = (Return m, a4) →
  get_stats (new h) log
  = (Return (stats_dict os t u m), (log ++ a1 ++ a2 ++ a3 ++ a4)%list).
Proof.
  intros H1 H2 H3 H4.
  rewrite get_stats_unfold.
  rewrite (collect_returns (new h) log os (log ++ a1)%list t
             ((log ++ a1) ++ a2)%list u (((log ++ a1) ++ a2) ++ a3)%list m
             ((((log ++ a1) ++ a2) ++ a3) ++ a4)%list); simpl.
  - now rewrite <- !app_assoc.
  - now rewrite os_info_shift, H1.
  - now rewrite temperature_shift, H2.
  - now rewrite cpu_usage_shift, H3.
  - now rewrite memory_shift, H4.
Qed.

(** ** The report as a function of the host *)

(** X3: [get_stats] is the four queries put together: when each query,
    run on its own, returns a value and logs some records, the report
    holds these four values and the log grows by the records of the
    identity, temperature, CPU and memory queries, in this order. *)
Theorem get_stats_composes (h : host) os a1 t a2 u a3 m a4 log :
  _get_os_info h [] = (Return os, a1) →
  _get_cpu_temperature h [] = (Return t, a2) →
  _get_cpu_usage h [] = (Return u, a3) →
  _get_memory_usage h [] = (Return m, a4) →
  ∃ report,
    get_stats (new h) log = (Return report, (log ++ a1 ++ a2 ++ a3 ++ a4)%list)
    ∧ report !! "os" = Some (PDict os)
    ∧ report !! "cpuTemp" = Some (PFloat t)
    ∧ report !! "cpuUsage" = Some (PList (map PFloat u))
    ∧ report !! "memoryUsage" = Some (PDict m).
Proof.
  intros E1 E2 E3 E4. exists (stats_dict os t u m).
  split; [now apply get_stats_frame|]. repeat split.
Qed.

Lemma get_stats_composes_witness :
  ∃ report,
    get_stats (new laptop_host) []
    = (Return report,
       [LogRecord ERROR
          "Error reading CPU temperature: could not convert string to float: 'n/a'"])
    ∧ report !! "os" = Some (PDict (os_dict "laptop" "Linux" "x86_64"))
    ∧ report !! "cpuTemp" = Some (PFloat Float64.zero)
    ∧ report !! "cpuUsage" = Some (PList (map PFloat [of_decimal false 5 0]))
    ∧ report !! "memoryUsage"
      = Some (PDict (memory_dict 4000000000 16000000000)).
Proof.
  refine (get_stats_composes laptop_host
            (os_dict "laptop" "Linux" "x86_64") [] Float64.zero
            [LogRecord ERROR
               "Error reading CPU temperature: could not convert string to float: 'n/a'"]
            [of_decimal false 5 0] []
            (memory_dict 4000000000 16000000000) [] [] _ _ _ _);
    vm_compute; reflexivity.
Defined.


Lemma os_info_records h :
  raises_ordinary (gethostname h) → raises_ordinary (system h) →
  raises_ordinary (machine h) →
  ∃ os added,
    _get_os_info h [] = (Return os, added)
    ∧ (length added ≤ 1)%nat
    ∧ Forall (λ r, levelname r = ERROR) added
    ∧ (added = [] ↔ os_info_failure h = None).
Proof.
  intros O1 O2 O3.
  destruct (os_info_cases h) as [(n & p & a & Hn & Hp & Ha & Hf) | (e & Hf & He)].
  - rewrite (os_info_success _ _ _ _ _ Hn Hp Ha). do 2 eexists.
    split; [reflexivity|]. split; [simpl; lia|]. split; [constructor|].
    now rewrite Hf.
  - assert (Hord : ordinary e).
    { destruct He as [H | [H | H]];
        [rewrite H in O1 | rewrite H in O2 | rewrite H in O3]; assumption. }
    destruct Hord as [s Habs].
    rewrite (os_info_raised _ _ _ Hf), (handled_absorbed _ _ _ _ _ _ Habs).
    do 2 eexists. split; [reflexivity|]. split; [simpl; lia|].
    split; [repeat constructor|]. rewrite Hf. split; discriminate.
Qed.

Lemma temperature_records h :
  (∀ n e, consulted h n → unusable n e → ordinary e) →
  ∃ t added,
    _get_cpu_temperature h [] = (Return t, added)
    ∧ (length added ≤ 1)%nat
    ∧ Forall (λ r, levelname r = WARNING ∨ levelname r = ERROR) added
    ∧ (added = [] ↔ temperature_measurable h).
Proof.
  intros Hord. destruct (consulted_cases h) as [[H1 H2] | [n Hc]].
  - rewrite temperature_absent by assumption. do 2 eexists.
    split; [reflexivity|]. split; [simpl; lia|].
    split; [repeat constructor; now left|]. split; [discriminate|].
    intros (n & x & Hc & _). destruct (not_consulted h n H1 H2 Hc).
  - destruct (node_cases n) as [[x Hu] | [e Hu]].
    + rewrite (temperature_measured_node _ _ _ _ Hc Hu). do 2 eexists.
      split; [reflexivity|]. split; [simpl; lia|]. split; [constructor|].
      split; [intros _; exists n, x; auto | reflexivity].
    + destruct (Hord n e Hc Hu) as [s Ha].
      rewrite (temperature_raised _ _ _ _ Hc Hu),
        (handled_absorbed _ _ _ _ _ _ Ha).
      do 2 eexists. split; [reflexivity|]. split; [simpl; lia|].
      split; [repeat constructor; now right|]. split; [discriminate|].
      intros (n' & x & Hc' & Hu').
      rewrite (consulted_unique _ _ _ Hc' Hc) in Hu'.
      destruct (usable_not_unusable _ _ _ Hu' Hu).
Qed.

Lemma cpu_usage_records h :
  raises_ordinary (cpu_percent h) →
  ∃ l added,
    _get_cpu_usage h [] = (Return l, added)
    ∧ (length added ≤ 1)%nat
    ∧ Forall (λ r, levelname r = ERROR) added
    ∧ (added = [] ↔ ∃ per_cpu, cpu_percent h = Return per_cpu).
Proof.
  intros Hord. destruct (cpu_percent h) as [per_cpu | e] eqn:H.
  - rewrite (cpu_usage_sampled _ _ _ H). do 2 eexists.
    split; [reflexivity|]. split; [simpl; lia|]. split; [constructor|].
    split; eauto.
  - destruct Hord as [s Ha].
    rewrite (cpu_usage_raised _ _ _ H), (handled_absorbed _ _ _ _ _ _ Ha).
    do 2 eexists. split; [reflexivity|]. split; [simpl; lia|].
    split; [repeat constructor|]. split; [discriminate|].
    intros [? ?]; discriminate.
Qed.

Lemma memory_records h :
  raises_ordinary (virtual_memory h) →
  ∃ d added,
    _get_memory_usage h [] = (Return d, added)
    ∧ (length added ≤ 1)%nat
    ∧ Forall (λ r, levelname r = ERROR) added
    ∧ (added = [] ↔ ∃ mem, virtual_memory h = Return mem).
Proof.
  intros Hord. destruct (virtual_memory h) as [mem | e] eqn:H.
  - rewrite (memory_measured _ _ _ H). do 2 eexists.
    split; [reflexivity|]. split; [simpl; lia|]. split; [constructor|].
    split; eauto.
  - destruct Hord as [s Ha].
    rewrite (memory_raised _ _ _ H), (handled_absorbed _ _ _ _ _ _ Ha).
    do 2 eexists. split; [reflexivity|]. split; [simpl; lia|].
    split; [repeat constructor|]. split; [discriminate|].
    intros [? ?]; discriminate.
Qed.

(** X4: on a host whose calls raise nothing but instances of [Exception]
    whose [str] returns, [get_stats] logs nothing exactly when all four
    queries measure; it adds at most four records, none of them at level
    INFO. *)
Theorem get_stats_silent_on_success (h : host) log :
  ordinary_host h →
  ∃ report added,
    get_stats (new h) log = (Return report, (log ++ added)%list)
    ∧ (length added ≤ 4)%nat
    ∧ Forall (λ r, levelname r ≠ INFO) added
    ∧ (added = []
       ↔ os_info_failure h = None
         ∧ temperature_measurable h
         ∧ (∃ per_cpu, cpu_percent h = Return per_cpu)
         ∧ (∃ mem, virtual_memory h = Return mem)).
Proof.
  intros (O1 & O2 & O3 & Ot & Oc & Om).
  destruct (os_info_records h O1 O2 O3) as (os & a1 & H1 & L1 & V1 & I1).
  destruct (temperature_records h Ot) as (t & a2 & H2 & L2 & V2 & I2).
  destruct (cpu_usage_records h Oc) as (u & a3 & H3 & L3 & V3 & I3).
  destruct (memory_records h Om) as (m & a4 & H4 & L4 & V4 & I4).
  exists (stats_dict os t u m), (a1 ++ a2 ++ a3 ++ a4)%list.
  split; [now apply get_stats_frame|]. split; [|split].
  - rewrite !length_app. lia.
  - rewrite !Forall_app. repeat split.
    + eapply Forall_impl; [exact V1|]. intros r ->. discriminate.
    + eapply Forall_impl; [exact V2|]. intros r [-> | ->]; discriminate.
    + eapply Forall_impl; [exact V3|]. intros r ->. discriminate.
    + eapply Forall_impl; [exact V4|]. intros r ->. discriminate.
  - rewrite <- I1, <- I2, <- I3, <- I4. split.
    + intros E. apply app_eq_nil in E as [-> E].
      apply app_eq_nil in E as [-> E]. apply app_eq_nil in E as [-> ->].
      auto.
    + intros (-> & -> & -> & ->). reflexivity.
Qed.

Lemma get_stats_silent_on_success_witness :
  ∃ report added,
    get_stats (new pi_host) [] = (Return report, ([] ++ added)%list)
    ∧ (length added ≤ 4)%nat
    ∧ Forall (λ r, levelname r ≠ INFO) added
    ∧ (added = []
       ↔ os_info_failure pi_host = None
         ∧ temperature_measurable pi_host
         ∧ (∃ per_cpu, cpu_percent pi_host = Return per_cpu)
         ∧ (∃ mem, virtual_memory pi_host = Return mem)).
Proof. exact (get_stats_silent_on_success pi_host [] pi_host_ordinary). Defined.

(** ** Any instance *)

(** X5: on every instance, also one whose methods were replaced, a report
    of [get_stats] has exactly the keys success, os, cpuTemp, cpuUsage and
    memoryUsage when success is true, and these five and error when
    success is false; [get_stats] raises only what the aggregation step
    raised that is no instance of [Exception], or what formatting its
    exception raised, and it returns when the aggregation step raises
    nothing but instances of [Exception] whose [str] returns. *)
Theorem get_stats_report_keys (self : instance) log :
  (∀ report log', get_stats self log = (Return report, log') →
     report !! "success" = Some (PBool true)
     ∧ dom report
       = ({["success"; "os"; "cpuTemp"; "cpuUsage"; "memoryUsage"]}
          : gset string)
     ∨ report !! "success" = Some (PBool false)
       ∧ dom report
         = ({["success"; "error"; "os"; "cpuTemp"; "cpuUsage";
              "memoryUsage"]} : gset string))
  ∧ (∀ e' log', get_stats self log = (Raise e', log') →
       ∃ e, collect self log = (Raise e, log')
            ∧ (is_exception e = false ∧ e' = e
               ∨ is_exception e = true ∧ py_str e = Raise e'))
  ∧ ((∀ e l, collect self log = (Raise e, l) → ordinary e) →
     ∃ report log', get_stats self log = (Return report, log')).
Proof.
  split; [|split].
  - intros report log' Hg.
    destruct (get_stats_returned _ _ _ _ Hg)
      as [(os & l1 & t & l2 & u & l3 & m & _ & _ & _ & _ & ->) | [s ->]].
    + left. split; [reflexivity|].
      unfold stats_dict. rewrite !dom_insert_L, dom_empty_L. set_solver.
    + right. split; [reflexivity|].
      unfold failure_report. rewrite !dom_insert_L, dom_empty_L. set_solver.
  - intros e' log'. rewrite get_stats_unfold.
    destruct (collect self log) as [[r | e] l]; [discriminate|].
    destruct (is_exception e) eqn:Hexc.
    + destruct (py_str e) as [s | e''] eqn:Hstr; [discriminate|].
      intros [= <- <-]. exists e. auto.
    + intros [= <- <-]. exists e. auto.
  - intros Hord. rewrite get_stats_unfold.
    destruct (collect self log) as [[r | e] l] eqn:Hc; [eauto|].
    destruct (Hord e l eq_refl) as (s & Hexc & Hstr).
    rewrite Hexc, Hstr. eauto.
Qed.

(** ** What the queries read *)

Lemma get_stats_ext (self self' : instance) :
  (∀ l, self_get_os_info self l = self_get_os_info self' l) →
  (∀ l, self_get_cpu_temperature self l = self_get_cpu_temperature self' l) →
  (∀ l, self_get_cpu_usage self l = self_get_cpu_usage self' l) →
  (∀ l, self_get_memory_usage self l = self_get_memory_usage self' l) →
  ∀ log, get_stats self log = get_stats self' log.
Proof.
  intros H1 H2 H3 H4 log. rewrite !get_stats_unfold.
  assert (collect self log = collect self' log) as ->; [|reflexivity].
  unfold collect, mbind, py_bind. rewrite H1.
  destruct (self_get_os_info self' log) as [[os|] l1]; [|reflexivity].
  rewrite H2.
  destruct (self_get_cpu_temperature self' l1) as [[t|] l2]; [|reflexivity].
  rewrite H3.
  destruct (self_get_cpu_usage self' l2) as [[u|] l3]; [|reflexivity].
  now rewrite H4.
Qed.

Lemma temperature_reads_two_paths (h h' : host) log :
  files h !! thermal_zone0 = files h' !! thermal_zone0 →
  files h !! virtual_thermal_zone0 = files h' !! virtual_thermal_zone0 →
  _get_cpu_temperature h log = _get_cpu_temperature h' log.
Proof.
  intros H1 H2.
  unfold _get_cpu_temperature, try_except, mbind, py_bind, thermal_paths.
  simpl. unfold path_exists, read_text. now rewrite H1, H2.
Qed.

(** X7: the report depends on the host only through the variable
    PUBLIC_HOSTNAME, the two candidate thermal paths and the five calls:
    two hosts that agree on these give the same report and the same log,
    whatever else their environments and file systems hold. *)
Theorem get_stats_reads_only_its_inputs (h h' : host) log :
  same_inputs h h' →
  get_stats (new h) log = get_stats (new h') log.
Proof.
  intros (Henv & Hn & Hp & Ha & Hf1 & Hf2 & Hc & Hm).
  apply get_stats_ext; intros l; simpl.
  - unfold _get_os_info, getenv. now rewrite Henv, Hn, Hp, Ha.
  - now apply temperature_reads_two_paths.
  - unfold _get_cpu_usage. now rewrite Hc.
  - unfold _get_memory_usage. now rewrite Hm.
Qed.

Lemma get_stats_reads_only_its_inputs_witness :
  get_stats (new pi_host) [] = get_stats (new busy_pi_host) [].
Proof.
  apply get_stats_reads_only_its_inputs.
  repeat split.
Defined.

(** X8: when the first candidate path exists the alternative one is never
    looked at: two hosts with the same node there read the same
    temperature and log the same, whatever the alternative path holds. *)
Theorem first_thermal_zone_shadows (h h' : host) (n : file_node) log :
  files h !! thermal_zone0 = Some n →
  files h' !! thermal_zone0 = Some n →
  _get_cpu_temperature h log = _get_cpu_temperature h' log.
Proof.
  intros H1 H2.
  unfold _get_cpu_temperature, try_except, mbind, py_bind, thermal_paths.
  simpl. unfold path_exists, read_text. now rewrite H1, H2.
Qed.

Lemma first_thermal_zone_shadows_witness :
  _get_cpu_temperature pi_host [] = _get_cpu_temperature two_zone_host [].
Proof.
  exact (first_thermal_zone_shadows pi_host two_zone_host
           (Readable "45678") [] eq_refl eq_refl).
Defined.

(** X9: the override of the hostname does not help when the network
    hostname cannot be read: [socket.gethostname()] is evaluated before
    the variable is looked up, so when it raises an instance of
    [Exception] whose [str] returns, the identity is the fallback, with
    hostname unknown, also when PUBLIC_HOSTNAME is set. *)
Theorem override_needs_network_hostname (h : host) (s : string) e msg log :
  environ h !! "PUBLIC_HOSTNAME" = Some s →
  gethostname h = Raise e →
  absorbed e msg →
  ∃ os,
    _get_os_info h log
    = (Return os,
       (log ++ [LogRecord ERROR ("Error getting OS info: " ++ msg)])%list)
    ∧ os !! "hostname" = Some (PStr "unknown")
    ∧ os !! "platform" = Some (PStr "unknown")
    ∧ os !! "arch" = Some (PStr "unknown").
Proof.
  intros _ Hn Ha. exists unknown_os. split; [|repeat split].
  rewrite (os_info_raised h log e), (handled_absorbed _ _ _ _ _ _ Ha);
    [reflexivity|].
  unfold os_info_failure. now rewrite Hn.
Qed.

Lemma override_needs_network_hostname_witness :
  ∃ os,
    _get_os_info no_network_host []
    = (Return os, [LogRecord ERROR "Error getting OS info: gethostname failed"])
    ∧ os !! "hostname" = Some (PStr "unknown")
    ∧ os !! "platform" = Some (PStr "unknown")
    ∧ os !! "arch" = Some (PStr "unknown").
Proof.
  refine (override_needs_network_hostname no_network_host "myhost"
            (Exn "OSError" "gethostname failed") "gethostname failed" []
            eq_refl eq_refl _).
  split; reflexivity.
Defined.

(** ** The text of the thermal zone *)

Section Strip.
Variable sp : ascii → bool.

Lemma lstrip_all (s : string) :
  PyStr.forall_chars sp s = true → PyStr.lstrip sp s = "".
Proof.
  induction s as [|c r IH]; [reflexivity|]. simpl.
  intros H. apply andb_prop in H as [Hc Hr]. rewrite Hc. auto.
Qed.

Lemma rstrip_all (s : string) :
  PyStr.forall_chars sp s = true → PyStr.rstrip sp s = "".
Proof.
  induction s as [|c r IH]; [reflexivity|]. simpl.
  intros H. apply andb_prop in H as [Hc Hr]. rewrite (IH Hr). now rewrite Hc.
Qed.

Lemma lstrip_app_l (pre s : string) :
  PyStr.forall_chars sp pre = true →
  PyStr.lstrip sp (pre ++ s) = PyStr.lstrip sp s.
Proof.
  induction pre as [|c r IH]; [reflexivity|]. simpl.
  intros H. apply andb_prop in H as [Hc Hr]. rewrite Hc. auto.
Qed.

Lemma rstrip_app_r (s post : string) :
  PyStr.forall_chars sp post = true →
  PyStr.rstrip sp (s ++ post) = PyStr.rstrip sp s.
Proof.
  intros H. induction s as [|c r IH]; [now apply rstrip_all|].
  simpl. now rewrite IH.
Qed.

Lemma lstrip_app_r (s post : string) :
  PyStr.lstrip sp (s ++ post) = PyStr.lstrip sp s ++ post
  ∨ PyStr.forall_chars sp s = true.
Proof.
  induction s as [|c r IH]; [now right|]. simpl.
  destruct (sp c); [exact IH | now left].
Qed.

Lemma rstrip_lstrip_padding (pre s post : string) :
  PyStr.forall_chars sp pre = true →
  PyStr.forall_chars sp post = true →
  PyStr.rstrip sp (PyStr.lstrip sp (pre ++ s ++ post))
  = PyStr.rstrip sp (PyStr.lstrip sp s).
Proof.
  intros Hpre Hpost. rewrite lstrip_app_l by exact Hpre.
  destruct (lstrip_app_r s post) as [-> | Hs].
  - now apply rstrip_app_r.
  - now rewrite (lstrip_app_l s post Hs), (lstrip_all post Hpost),
      (lstrip_all s Hs).
Qed.

(** A text without any character of the class is left as it is. *)
Lemma rstrip_none (s : string) :
  PyStr.forall_chars (λ c, negb (sp c)) s = true → PyStr.rstrip sp s = s.
Proof.
  induction s as [|c r IH]; [reflexivity|]. simpl.
  intros H. apply andb_prop in H as [Hc Hr]. rewrite (IH Hr).
  apply negb_true_iff in Hc. rewrite Hc. now destruct r.
Qed.

Lemma lstrip_none (s : string) :
  PyStr.forall_chars (λ c, negb (sp c)) s = true → PyStr.lstrip sp s = s.
Proof.
  destruct s as [|c r]; [reflexivity|]. simpl.
  intros H. apply andb_prop in H as [Hc _].
  apply negb_true_iff in Hc. now rewrite Hc.
Qed.

End Strip.

Lemma forall_chars_impl (p q : ascii → bool) (s : string) :
  (∀ c, p c = true → q c = true) →
  PyStr.forall_chars p s = true → PyStr.forall_chars q s = true.
Proof.
  intros Hpq. induction s as [|c r IH]; [reflexivity|]. simpl.
  intros H. apply andb_prop in H as [Hc Hr]. rewrite (Hpq c Hc). auto.
Qed.

(** The reading as a function of the text of the consulted thermal zone. *)
Lemma temperature_of_text h log text :
  consulted h (Readable text) →
  _get_cpu_temperature h log
  = match PyFloat.float_of_string (PyStr.strip text) with
    | Return x => (Return (round1 (Float64.div x thousand)), log)
    | Raise e => handled ERROR "Error reading CPU temperature: " zero e log
    end.
Proof.
  intros Hc.
  destruct (PyFloat.float_of_string (PyStr.strip text)) as [x | e] eqn:Hx.
  - now apply temperature_measured with text.
  - apply temperature_raised with (Readable text); [exact Hc|].
    right. left. eauto.
Qed.

(** X10: white space around the text of the thermal zone, such as the
    newline the kernel writes after the number, changes neither the
    temperature nor the log. *)
Theorem thermal_text_padding_ignored (h h' : host) (pre s post : string) log :
  PyStr.forall_chars PyStr.is_unicode_space pre = true →
  PyStr.forall_chars PyStr.is_unicode_space post = true →
  consulted h (Readable (pre ++ s ++ post)) →
  consulted h' (Readable s) →
  _get_cpu_temperature h log = _get_cpu_temperature h' log.
Proof.
  intros Hpre Hpost Hc Hc'.
  rewrite (temperature_of_text _ _ _ Hc), (temperature_of_text _ _ _ Hc').
  unfold PyStr.strip. now rewrite rstrip_lstrip_padding.
Qed.

Lemma thermal_text_padding_ignored_witness :
  _get_cpu_temperature newline_host [] = _get_cpu_temperature pi_host [].
Proof.
  refine (thermal_text_padding_ignored newline_host pi_host
            " " "45678" (String "010" EmptyString) [] eq_refl eq_refl _ _);
    left; reflexivity.
Defined.

(** *** A text of decimal digits *)

Lemma digit_neq (c d : ascii) :
  PyStr.is_digit c = true → PyStr.is_digit d = false → Ascii.eqb c d = false.
Proof.
  intros Hc Hd. destruct (Ascii.eqb_spec c d) as [-> | _]; congruence.
Qed.

Lemma digit_not_sign (c : ascii) :
  PyStr.is_digit c = true →
  Ascii.eqb c "-" = false ∧ Ascii.eqb c "+" = false
  ∧ Ascii.eqb c "_" = false ∧ Ascii.eqb c "." = false.
Proof. intros H. repeat split; now apply digit_neq. Qed.

Lemma digit_code (c : ascii) :
  PyStr.is_digit c = true → 48 ≤ PyStr.code c ≤ 57.
Proof.
  unfold PyStr.is_digit. intros H. apply andb_prop in H as [H1 H2].
  apply Z.leb_le in H1, H2. lia.
Qed.

Lemma scan_digits_all (s : string) (acc n : Z) :
  PyStr.forall_chars PyStr.is_digit s = true →
  PyFloat.scan_digits s acc n
  = (decimal_value acc s, n + Z.of_nat (String.length s), "").
Proof.
  revert acc n. induction s as [|c r IH]; intros acc n H.
  - simpl. now rewrite Z.add_0_r.
  - cbn [PyFloat.scan_digits decimal_value PyStr.forall_chars] in *.
    apply andb_prop in H as [Hc Hr]. rewrite Hc, (IH _ _ Hr).
    change (String.length (String c r)) with (S (String.length r)).
    rewrite Nat2Z.inj_succ. do 2 f_equal. lia.
Qed.

(** Skipping leading zeros keeps the number written and leaves digits. *)
Lemma skip_zeros_digits (s : string) (n : Z) :
  PyStr.forall_chars PyStr.is_digit s = true →
  ∃ k s',
    PyFloat.skip_zeros s n = (n + k, s')
    ∧ PyStr.forall_chars PyStr.is_digit s' = true
    ∧ decimal_value 0 s' = decimal_value 0 s
    ∧ 0 ≤ k
    ∧ k + Z.of_nat (String.length s') = Z.of_nat (String.length s).
Proof.
  revert n. induction s as [|c r IH]; intros n H.
  - exists 0, "". simpl. rewrite Z.add_0_r. repeat split; lia.
  - pose proof H as H'. simpl in H. apply andb_prop in H as [Hc Hr]. simpl.
    destruct (Ascii.eqb_spec c "0") as [-> | Hne].
    + destruct (IH (n + 1) Hr) as (k & s' & E & D & V & K & L).
      exists (k + 1), s'. rewrite E. repeat split; try assumption; try lia.
      f_equal. lia.
    + exists 0, (String c r). rewrite Z.add_0_r. repeat split; auto; lia.
Qed.

(** [float] on a run of decimal digits gives the float nearest to the
    number written. *)
Lemma float_of_digits (s : string) :
  s ≠ "" →
  PyStr.forall_chars PyStr.is_digit s = true →
  Z.of_nat (String.length s) ≤ PyFloat.MAX_DIGITS →
  PyFloat.float_of_string s = Return (of_decimal false (decimal_value 0 s) 0).
Proof.
  intros Hne Hd Hlen.
  assert (Hascii : PyStr.forall_chars (λ c, PyStr.code c <? 128) s = true).
  { eapply forall_chars_impl; [|exact Hd].
    intros c Hc. apply digit_code in Hc. apply Z.ltb_lt. lia. }
  assert (Hnosp : PyStr.forall_chars (λ c, negb (PyStr.is_ascii_space c)) s = true).
  { eapply forall_chars_impl; [|exact Hd].
    intros c Hc. apply digit_code in Hc. unfold PyStr.is_ascii_space.
    apply negb_true_iff, orb_false_intro;
      [apply andb_false_intro2, Z.leb_gt | apply Z.eqb_neq]; lia. }
  assert (Hnou : PyStr.contains "_" s = false).
  { clear -Hd. induction s as [|c r IH]; [reflexivity|].
    cbn [PyStr.contains PyStr.forall_chars] in *.
    apply andb_prop in Hd as [Hc Hr].
    destruct (digit_not_sign c Hc) as (_ & _ & Hu & _).
    rewrite Ascii.eqb_sym, Hu. auto. }
  unfold PyFloat.float_of_string, PyFloat.to_ascii, PyFloat.without_underscores.
  rewrite Hascii, Hnou, lstrip_none, rstrip_none by assumption.
  unfold PyFloat.ascii_strtod, PyFloat.strtod.
  assert (Hsign : PyFloat.scan_sign s = (false, s)).
  { destruct s as [|c r]; [reflexivity|]. simpl in Hd.
    apply andb_prop in Hd as [Hc _].
    destruct (digit_not_sign c Hc) as (Hm & Hp & _ & _).
    simpl. now rewrite Hm, Hp. }
  rewrite Hsign.
  destruct (skip_zeros_digits s 0 Hd) as (k & s' & E & D & V & K & L).
  rewrite E, (scan_digits_all s' 0 0 D). simpl. rewrite !Z.add_0_l.
  assert (Hvalid : (Z.of_nat (String.length s') =? 0) && negb (0 <? k) = false).
  { destruct s as [|c r]; [congruence|].
    change (String.length (String c r)) with (S (String.length r)) in L.
    rewrite Nat2Z.inj_succ in L.
    destruct (Z.ltb_spec 0 k); [apply andb_false_r|].
    apply andb_false_intro1, Z.eqb_neq. lia. }
  rewrite Hvalid.
  assert (Hmax : (PyFloat.MAX_DIGITS <? Z.of_nat (String.length s'))
                 || (PyFloat.MAX_DIGITS <? 0) = false).
  { apply orb_false_intro; [apply Z.ltb_ge; lia | reflexivity]. }
  rewrite Hmax. now rewrite V.
Qed.

(** X11: a thermal zone whose text is, white space apart, a run of
    decimal digits (at most 10^9 of them) is always read: the query
    returns the number written, as a float, divided by 1000.0 and rounded
    to one decimal, and logs nothing. *)
Theorem thermal_digits_are_read (h : host) (text : string) log :
  consulted h (Readable text) →
  PyStr.strip text ≠ "" →
  PyStr.forall_chars PyStr.is_digit (PyStr.strip text) = true →
  Z.of_nat (String.length (PyStr.strip text)) ≤ PyFloat.MAX_DIGITS →
  _get_cpu_temperature h log
  = (Return (round1 (Float64.div
                       (of_decimal false (decimal_value 0 (PyStr.strip text)) 0)
                       thousand)), log).
Proof.
  intros Hc Hne Hd Hlen.
  rewrite (temperature_of_text _ _ _ Hc).
  now rewrite (float_of_digits _ Hne Hd Hlen).
Qed.

Lemma thermal_digits_are_read_witness :
  _get_cpu_temperature newline_host []
  = (Return (round1 (Float64.div (of_decimal false 45678 0) thousand)), []).
Proof.
  refine (thermal_digits_are_read newline_host newline_text [] _ _ _ _).
  - left. reflexivity.
  - vm_compute. discriminate.
  - reflexivity.
  - vm_compute. discriminate.
Defined.

(** ** One decimal *)

Lemma same_float_eq (x y : float) : same_float x y = true → x = y.
Proof.
  destruct x as [s | s | | s m e], y as [s' | s' | | s' m' e'];
    simpl; try discriminate; try reflexivity.
  - intros H. apply Bool.eqb_prop in H. now subst.
  - intros H. apply Bool.eqb_prop in H. now subst.
  - intros H. apply andb_prop in H as [H He]. apply andb_prop in H as [Hs Hm].
    apply Bool.eqb_prop in Hs. apply Pos.eqb_eq in Hm. apply Z.eqb_eq in He.
    now subst.
Qed.

(** The floats nearest to 0.1, 0.2, ..., 100.0 round to themselves. *)
Lemma tenth_fixed_table :
  forallb (λ k, same_float (round1 (of_ratio false (Pos.of_nat k) 10))
                           (of_ratio false (Pos.of_nat k) 10))
          (seq 1 1000) = true.
Proof. vm_compute. reflexivity. Qed.

Lemma tenth_fixed (n : positive) :
  Zpos n ≤ 1000 → round1 (of_ratio false n 10) = of_ratio false n 10.
Proof.
  intros Hn. apply same_float_eq.
  pose proof (proj1 (forallb_forall _ _) tenth_fixed_table (Pos.to_nat n))
    as H.
  cbv beta in H. rewrite Pos2Nat.id in H. apply H.
  apply in_seq. lia.
Qed.

(** A percentage rounds to a whole number of tenths, at most 1000, and the
    result rounds to itself. *)
Lemma round1_percentage (x : float) :
  is_binary64 x = true →
  in_percent_range x = true →
  (∃ s k, 0 ≤ k ≤ 1000 ∧ round1 x = tenth_float s k)
  ∧ round1 (round1 x) = round1 x.
Proof.
  intros Hv Hr. destruct x as [s | s | | s m e].
  - split; [exists s, 0; split; [lia | reflexivity] | reflexivity].
  - destruct s; discriminate.
  - discriminate.
  - destruct s; [discriminate|].
    apply andb_prop in Hr as [_ Hhi].
    destruct (le_hundred_tenths m e Hv Hhi) as [He Hm].
    unfold round1 at 1 3. unfold round1 at 2. unfold tenths.
    destruct (Z.leb_spec 0 e) as [|_]; [lia|].
    pose proof (div_half_even_range (10 * Zpos m) (2 ^ (- e))
                  ltac:(apply Z.pow_pos_nonneg; lia) ltac:(lia)) as Hrange.
    destruct (div_half_even (10 * Zpos m) (2 ^ (- e))) as [|n|n] eqn:Hk.
    + split; [exists false, 0; split; [lia | reflexivity] | reflexivity].
    + split; [exists false, (Zpos n); split; [lia | reflexivity]|].
      apply tenth_fixed. lia.
    + lia.
Qed.

(** X12: when every sample of the facility is a float between 0.0 and
    100.0, every element of a list [_get_cpu_usage] returns is the float
    nearest to a whole number of tenths between 0 and 1000 (0.0, 0.1, ...,
    100.0), and rounding it again to one decimal leaves it as it is; the
    list is returned when sampling returns or raises an instance of
    [Exception] whose [str] returns. *)
Theorem cpu_usage_one_decimal (h : host) log :
  samples_are_percentages h →
  (∀ l log', _get_cpu_usage h log = (Return l, log') →
     Forall (λ r, (∃ s k, 0 ≤ k ≤ 1000 ∧ r = tenth_float s k)
                  ∧ round1 r = r) l)
  ∧ (raises_ordinary (cpu_percent h) →
     ∃ l log',
       _get_cpu_usage h log = (Return l, log')
       ∧ Forall (λ r, (∃ s k, 0 ≤ k ≤ 1000 ∧ r = tenth_float s k)
                      ∧ round1 r = r) l).
Proof.
  intros Hs.
  assert (Hfield : ∀ l, usage_field h l →
            Forall (λ r, (∃ s k, 0 ≤ k ≤ 1000 ∧ r = tenth_float s k)
                         ∧ round1 r = r) l).
  { intros l [(per_cpu & Hp & ->) | [_ ->]].
    - unfold samples_are_percentages in Hs. rewrite Hp in Hs.
      apply List.Forall_map. eapply Forall_impl; [exact Hs|].
      intros x [Hv Hr]. now apply round1_percentage.
    - repeat constructor. exists false, 0. split; [lia | reflexivity]. }
  split.
  - intros l log' Hl. eauto using cpu_usage_returned.
  - intros Hord. destruct (cpu_usage_returns h log Hord) as (l & log' & Hl).
    exists l, log'. eauto using cpu_usage_returned.
Qed.

Lemma cpu_usage_one_decimal_witness :
  ∃ l log',
    _get_cpu_usage pi_host [] = (Return l, log')
    ∧ Forall (λ r, (∃ s k, 0 ≤ k ≤ 1000 ∧ r = tenth_float s k)
                   ∧ round1 r = r) l.
Proof.
  refine (proj2 (cpu_usage_one_decimal pi_host [] _) I).
  unfold samples_are_percentages. simpl.
  repeat constructor; vm_compute; reflexivity.
Defined.

(** The integer [div_half_even] picks is a nearest one, and the even one
    of the two on a tie. *)
Lemma div_half_even_nearest (n d : Z) :
  0 < d → 0 ≤ n →
  0 ≤ div_half_even n d
  ∧ Z.abs (2 * n - 2 * div_half_even n d * d) ≤ d
  ∧ (Z.abs (2 * n - 2 * div_half_even n d * d) = d →
     Z.even (div_half_even n d) = true).
Proof.
  intros Hd Hn. unfold div_half_even.
  pose proof (Z.div_mod n d ltac:(lia)) as Hdm.
  pose proof (Z.mod_pos_bound n d Hd) as Hr.
  assert (Hq0 : 0 ≤ n / d) by (apply Z.div_pos; lia).
  set (q := n / d) in *. set (r := n mod d) in *.
  assert (E0 : 2 * n - 2 * q * d = 2 * r) by lia.
  assert (E1 : 2 * n - 2 * (q + 1) * d = 2 * r - 2 * d) by lia.
  destruct (Z.compare_spec (2 * r) d) as [He | Hl | Hg].
  - destruct (Z.even q) eqn:Hev.
    + rewrite E0. repeat split; lia || auto.
    + rewrite E1. repeat split; try lia.
      intros _. rewrite Z.even_add, Hev. reflexivity.
  - rewrite E0. repeat split; lia.
  - rewrite E1. repeat split; lia.
Qed.

(** X13: a finite sample [m * 2^e] is reported as the float nearest to
    [k] tenths, with the sign of the sample, where [k] is a whole number
    nearest to ten times the magnitude of the sample, in exact arithmetic
    on the binary value, and the even one when two are as near. *)
Theorem cpu_usage_nearest_tenth (h : host) log per_cpu (i : nat) s m e :
  cpu_percent h = Return per_cpu →
  per_cpu !! i = Some (S754_finite s m e) →
  ∃ l k,
    _get_cpu_usage h log = (Return l, log)
    ∧ l !! i = Some (tenth_float s k)
    ∧ 0 ≤ k
    ∧ Z.abs (2 * (10 * Zpos m * 2 ^ Z.max 0 e) - 2 * k * 2 ^ Z.max 0 (- e))
      ≤ 2 ^ Z.max 0 (- e)
    ∧ (Z.abs (2 * (10 * Zpos m * 2 ^ Z.max 0 e) - 2 * k * 2 ^ Z.max 0 (- e))
       = 2 ^ Z.max 0 (- e) → Z.even k = true).
Proof.
  intros Hp Hi. exists (map round1 per_cpu), (tenths m e).
  split; [now apply cpu_usage_sampled|]. split.
  - change (map round1 per_cpu) with (round1 <$> per_cpu).
    rewrite list_lookup_fmap, Hi. reflexivity.
  - unfold tenths. destruct (Z.leb_spec 0 e) as [He | He].
    + rewrite (Z.max_r 0 e), (Z.max_l 0 (- e)) by lia.
      change (2 ^ 0) with 1.
      assert (0 < 2 ^ e) by (apply Z.pow_pos_nonneg; lia).
      repeat split; nia.
    + rewrite (Z.max_l 0 e), (Z.max_r 0 (- e)) by lia.
      change (2 ^ 0) with 1. rewrite Z.mul_1_r.
      apply div_half_even_nearest; [apply Z.pow_pos_nonneg|]; lia.
Qed.

Lemma cpu_usage_nearest_tenth_witness :
  ∃ l k,
    _get_cpu_usage pi_host [] = (Return l, [])
    ∧ l !! 0%nat = Some (tenth_float false k)
    ∧ 0 ≤ k
    ∧ Z.abs (2 * (10 * 6602277053725147 * 2 ^ Z.max 0 (-48))
             - 2 * k * 2 ^ Z.max 0 (- -48))
      ≤ 2 ^ Z.max 0 (- -48)
    ∧ (Z.abs (2 * (10 * 6602277053725147 * 2 ^ Z.max 0 (-48))
              - 2 * k * 2 ^ Z.max 0 (- -48))
       = 2 ^ Z.max 0 (- -48) → Z.even k = true).
Proof.
  refine (cpu_usage_nearest_tenth pi_host []
            [of_decimal false 23456 (-3); of_decimal false 77891 (-3)] 0
            false 6602277053725147 (-48) eq_refl _).
  vm_compute. reflexivity.
Defined.
